(** * PerpBitmart: a shallow embedding of [utilities/bitmart_perp.py]

    The adapter sits between a trading caller and the ccxt session.  The
    embedding keeps the shape of the Python code:

    - numbers that Python holds as [float] or [int] are the rationals they
      denote ([Q]); [Decimal(x)] is exact, so it is the identity on them;
    - [Decimal] arithmetic runs under the precision of the decimal context
      of the running thread, which the constructor sets to 10 where it
      runs: every product and quotient is the exact result rounded to that
      many significant decimal digits, ties to even ([round_sig 10 prec]);
    - a value stored in a pydantic [float] field becomes a binary64
      ([to_float]): the nearest one, ties to even, with a 53-bit
      significand in the normal range, a multiple of [2^-1074] below it
      and an infinity from [2^1024 - 2^970] on;
    - the methods are [async def]s over [self._session]; they are written
      in a small monad that threads the list of session calls made so far,
      what was printed and the decimal precision, and ends in a returned
      value or a raised exception; [except Exception] catches the
      exceptions that derive from [Exception] and lets a cancellation
      through;
    - the session is a record of functions giving the outcome of each of
      its methods. *)

From Stdlib Require Import ZArith QArith Qabs Lia Lqa String Ascii List Bool.
From Stdlib Require Import DecimalString.
From Equations Require Import Equations.
From stdpp Require Import base option list strings gmap.

Local Open Scope Z_scope.

(** ** Rounding to a number of significant digits *)

Module Rounding.

(** Number of base-[beta] digits of a positive integer, by repeated
    division; [fuel] bounds the number of divisions. *)
Fixpoint Zdigits_aux (fuel : nat) (beta n : Z) : Z :=
  match fuel with
  | O => 0
  | S f => if n <=? 0 then 0 else 1 + Zdigits_aux f beta (n / beta)
  end.

Definition Zdigits (beta n : Z) : Z :=
  Zdigits_aux (S (Z.to_nat (Z.log2 n))) beta n.

(** Nearest integer to [a / b] for [0 < b], ties to the even neighbour. *)
Definition round_half_even (a b : Z) : Z :=
  let q := a / b in
  let r := a mod b in
  match (2 * r ?= b) with
  | Lt => q
  | Gt => q + 1
  | Eq => if Z.even q then q else q + 1
  end.

(** [scale beta k] is [beta ^ k] as a fraction [(up, down)]. *)
Definition scale (beta k : Z) : Z * Z :=
  if 0 <=? k then (beta ^ k, 1) else (1, beta ^ (- k)).

(** The exponent [k] for which [|x| * beta ^ k] lies in
    [[beta ^ (prec - 1), beta ^ prec)], for [x = n / d] with [0 < n]. *)
Definition sig_exponent (beta prec n d : Z) : Z :=
  let k := prec + Zdigits beta d - Zdigits beta n in
  let '(up, down) := scale beta k in
  if beta ^ prec * (d * down) <=? n * up then k - 1 else k.

(** [x] rounded to [prec] significant base-[beta] digits, ties to even. *)
Definition round_sig (beta prec : Z) (x : Q) : Q :=
  let n := Z.abs (Qnum x) in
  let d := Z.pos (Qden x) in
  if n =? 0 then 0%Q
  else
    let k := sig_exponent beta prec n d in
    let '(up, down) := scale beta k in
    let r := round_half_even (n * up) (d * down) in
    Qred (Qmake (Z.sgn (Qnum x) * r * down) (Z.to_pos up)).

(** Half the relative spacing of [prec]-digit numbers: [beta^(1-prec) / 2]. *)
Definition half_ulp (beta prec : Z) : Q :=
  Qmake 1 (Z.to_pos (2 * beta ^ (prec - 1))).

End Rounding.

(** ** Python strings *)

Module PyStr.

(** [s.startswith(pat)] *)
Fixpoint starts_with (pat s : string) : bool :=
  match pat, s with
  | EmptyString, _ => true
  | String _ _, EmptyString => false
  | String a pat', String b s' => Ascii.eqb a b && starts_with pat' s'
  end.

(** [pat in s] *)
Fixpoint contains (pat s : string) : bool :=
  starts_with pat s
  || match s with
     | EmptyString => false
     | String _ s' => contains pat s'
     end.

(** [s.replace(old, new)] for a non-empty [old]: the scan goes left to
    right; where [old] starts, [new] is emitted and the scan resumes after
    the match ([skip] counts the characters of the match still to drop). *)
Fixpoint replace_from (old new : string) (skip : nat) (s : string) : string :=
  match s with
  | EmptyString => EmptyString
  | String c s' =>
      match skip with
      | S k => replace_from old new k s'
      | O =>
          if starts_with old s
          then String.append new (replace_from old new (String.length old - 1) s')
          else String c (replace_from old new 0 s')
      end
  end.

(** With an empty [old], Python puts [new] before every character and at
    the end. *)
Fixpoint put_after_each (new s : string) : string :=
  match s with
  | EmptyString => EmptyString
  | String c s' => String c (String.append new (put_after_each new s'))
  end.

Definition replace (old new s : string) : string :=
  match old with
  | EmptyString => String.append new (put_after_each new s)
  | String _ _ => replace_from old new 0 s
  end.

(** [str(n)] for an [int]. *)
Definition str_of_int (n : Z) : string := NilZero.string_of_int (Z.to_int n).

End PyStr.
(** ** Exceptions, outcomes and the monad of the [async def]s *)

Module Py.

(** The exceptions the adapter can meet.  All but the last derive from
    [Exception]; [asyncio.CancelledError], which an awaited call raises
    when its task is cancelled or timed out, derives from [BaseException]
    only. *)
Inductive exn : Type :=
| Exception (msg : string)      (* raise Exception(msg) *)
| IndexError                    (* [][0] *)
| TypeError                     (* None["contractSize"] *)
| KeyError (key : string)       (* ts_dict[timeframe] *)
| AttributeError (name : string) (* self.market before load_markets *)
| DivisionByZero                (* decimal: x / 0 with x non-zero *)
| InvalidOperation              (* decimal: 0 / 0 *)
| SessionError (msg : string)   (* an error the ccxt session raises *)
| CancelledError.               (* asyncio.CancelledError *)

(** [isinstance(e, Exception)] *)
Definition is_exception (e : exn) : bool :=
  match e with
  | CancelledError => false
  | _ => true
  end.

Inductive outcome (A : Type) : Type :=
| Returned (a : A)
| Raised (e : exn).
Arguments Returned {A} a.
Arguments Raised {A} e.

(** One entry per method invoked on [self._session]. *)
Inductive call : Type :=
| CallLoadMarkets
| CallClose
| CallFetchOhlcv (symbol timeframe start_time end_time : string)
| CallFetchBalance
| CallSetLeverage (leverage : Z) (symbol open_type marginMode : string)
| CallFetchPositions (symbols : list string)
| CallAmountToPrecision (symbol : string) (amount : Q)
| CallPriceToPrecision (symbol : string) (price : Q)
| CallCreateOrder (symbol type side amount : string) (price : Q)
    (reduceOnly : bool) (marginMode : string) (leverage : Z)
| CallFetchOrder (id symbol : string)
| CallCancelOrders (ids : list string) (symbol : string) (stop : bool).

(** The state a method runs in: the session calls made so far, in order,
    what [print] wrote, and the precision of the decimal context that is
    current where the method runs. *)
Record world : Type :=
  { calls : list call; printed : list exn; decimal_prec : Z }.

Definition M (A : Type) : Type := world -> outcome A * world.

Definition ret {A} (a : A) : M A := fun w => (Returned a, w).

Definition raise {A} (e : exn) : M A := fun w => (Raised e, w).

Definition bind {A B} (m : M A) (k : A -> M B) : M B :=
  fun w =>
    match m w with
    | (Returned a, w') => k a w'
    | (Raised e, w') => (Raised e, w')
    end.

(** [try: body except Exception as e: handler e]: an exception that does
    not derive from [Exception] passes through. *)
Definition try_except {A} (body : M A) (handler : exn -> M A) : M A :=
  fun w =>
    match body w with
    | (Returned a, w') => (Returned a, w')
    | (Raised e, w') => if is_exception e then handler e w' else (Raised e, w')
    end.

Definition lift {A} (o : outcome A) : M A := fun w => (o, w).

(** [await self._session.method(...)]: the call is recorded, its outcome
    is the session's. *)
Definition session_call {A} (c : call) (result : outcome A) : M A :=
  fun w => (result, {| calls := calls w ++ [c]; printed := printed w;
                        decimal_prec := decimal_prec w |}).

Definition print (e : exn) : M unit :=
  fun w => (Returned tt, {| calls := calls w; printed := printed w ++ [e];
                            decimal_prec := decimal_prec w |}).

(** [getcontext().prec] *)
Definition get_prec : M Z := fun w => (Returned (decimal_prec w), w).

(** [getcontext().prec = p] *)
Definition set_prec (p : Z) : M unit :=
  fun w => (Returned tt, {| calls := calls w; printed := printed w;
                            decimal_prec := p |}).

(** [for x in l: out.append(f(x))] *)
Fixpoint for_each {A B} (f : A -> M B) (l : list A) : M (list B) :=
  match l with
  | [] => ret []
  | x :: l' => bind (f x) (fun y => bind (for_each f l') (fun ys => ret (y :: ys)))
  end.

(** The results of a batch of awaited calls: all of them, or an
    exception.  [asyncio.gather] raises the exception of the task that
    fails first in time; outcomes here carry no time, and the exception of
    the first failed task in task order stands for it. *)
Fixpoint all_returned {A} (os : list (outcome A)) : outcome (list A) :=
  match os with
  | [] => Returned []
  | Raised e :: _ => Raised e
  | Returned a :: os' =>
      match all_returned os' with
      | Returned l => Returned (a :: l)
      | Raised e => Raised e
      end
  end.

(** [await asyncio.gather] over the tasks: every task is started, so every
    call is recorded; the results come back in task order. *)
Definition gather {A} (tasks : list (call * outcome A)) : M (list A) :=
  fun w => (all_returned (map snd tasks),
            {| calls := calls w ++ map fst tasks; printed := printed w;
               decimal_prec := decimal_prec w |}).

(** The state right after the constructor, where it ran: nothing called,
    nothing printed, the precision it set. *)
Definition initial : world := {| calls := []; printed := []; decimal_prec := 10 |}.

(** The same in a thread that has its own decimal context, with the
    precision of [decimal.DefaultContext]. *)
Definition other_thread : world :=
  {| calls := []; printed := []; decimal_prec := 28 |}.

(** A method run from a fresh log where the constructor ran. *)
Definition run {A} (m : M A) : outcome A * world := m initial.

End Py.

#[global] Instance M_ret : MRet Py.M := @Py.ret.
#[global] Instance M_bind : MBind Py.M := fun A B k m => Py.bind m k.

(** ** [decimal] and [float] arithmetic *)

Module Decimal.
Import Py.

(** The precision [PerpBitmart.__init__] gives the current context. *)
Definition prec : Z := 10.

(** [Decimal(x) * Decimal(y)] in a context of precision [p] *)
Definition mul (p : Z) (x y : Q) : Q := Rounding.round_sig 10 p (x * y).

(** [Decimal(x) / Decimal(y)] in a context of precision [p]; the context
    traps both signals. *)
Definition div (p : Z) (x y : Q) : outcome Q :=
  if Qeq_bool y 0 then
    if Qeq_bool x 0 then Raised InvalidOperation else Raised DivisionByZero
  else Returned (Rounding.round_sig 10 p (x / y)).

End Decimal.

(** A binary64 value that a conversion can give: a finite number or an
    infinity. *)
Inductive pyfloat : Type :=
| Finite (q : Q)
| Infinity (negative : bool).

(** The smallest positive normal binary64 number, [2^-1022]. *)
Definition min_normal : Q := Qmake 1 (2 ^ 1022)%positive.

(** [2^1024], which the largest binary64 number stays below. *)
Definition overflow_threshold : Q := inject_Z (2 ^ 1024).

(** [float(x)], the conversion a pydantic [float] field applies: the
    nearest binary64 number, ties to even.  Below [2^-1022] the numbers
    are the multiples of [2^-1074]; a result of [2^1024] or more is an
    infinity. *)
Definition to_float (x : Q) : pyfloat :=
  if Qle_bool min_normal (Qabs x) then
    let r := Rounding.round_sig 2 53 x in
    if Qle_bool overflow_threshold (Qabs r)
    then Infinity (Qnum x <? 0)%Z
    else Finite r
  else
    Finite (Qred (Qmake (Rounding.round_half_even (Qnum x * 2 ^ 1074) (Z.pos (Qden x)))
                        (2 ^ 1074)%positive)).

(** [round(x, ndigits)] on a [float], for [0 <= ndigits]: the float
    nearest to the decimal with [ndigits] places nearest to [x]. *)
Definition py_round (x : Q) (ndigits : Z) : pyfloat :=
  let p := 10 ^ ndigits in
  to_float (Qmake (Rounding.round_half_even (Qnum x * p) (Z.pos (Qden x))) (Z.to_pos p)).
(** ** The normalized records (the pydantic models)

    A [float] field that is filled with a [Decimal] or with a number of a
    raw payload holds what the conversion to [float] gives ([pyfloat]); a
    field filled with a float the session has parsed holds that float. *)

Module UsdtBalance.
Record t : Type := { total : pyfloat; free : pyfloat; used : pyfloat }.
End UsdtBalance.

Module Info.
Record t : Type := { success : bool; message : string }.
End Info.

Module Order.
Record t : Type :=
  { id : string; pair : string; type : string; side : string; price : Q;
    size : pyfloat; reduce : bool; filled : pyfloat; remaining : pyfloat;
    timestamp : Z }.
End Order.

Module Position.
Record t : Type :=
  { pair : string; side : string; size : pyfloat; usd_size : pyfloat;
    entry_price : Q; current_price : pyfloat; unrealizedPnl : Q;
    liquidation_price : Q;
    margin_mode : string; leverage : Q; hedge_mode : bool;
    open_timestamp : Z; take_profit_price : Q; stop_loss_price : Q }.
End Position.

(** ** What the session hands back (the raw dictionaries) *)

(** An element of [resp["info"]["data"]] of [fetch_balance]; the three
    amounts are the numbers the raw payload gives, as they are written. *)
Module BalanceEntry.
Record t : Type :=
  { currency : string; equity : Q; available_balance : Q; position_deposit : Q }.
End BalanceEntry.

(** An element of the list [fetch_positions] returns; the three prices
    that may be missing and the hedge flag are [None] when absent. *)
Module RawPosition.
Record t : Type :=
  { symbol : string; side : string; contracts : Q; contractSize : Q;
    markPrice : Q; entryPrice : Q; unrealizedPnl : Q; leverage : Q;
    liquidationPrice : option Q; takeProfitPrice : option Q;
    stopLossPrice : option Q; hedged : option bool;
    info_margin_type : string; info_open_timestamp : Z }.
End RawPosition.

(** The dictionary [create_order] returns, as far as it is read. *)
Module CreatedOrder.
Record t : Type := { id : string; symbol : string }.
End CreatedOrder.

(** A value of the raw [info] payload: a number, or text. *)
Inductive raw_value : Type :=
| RawNumber (q : Q)
| RawText (s : string).

(** [x in [2, 3]]: a number compares by value, text equals no number. *)
Definition in_2_3 (x : raw_value) : bool :=
  match x with
  | RawNumber q => Qeq_bool q (2 # 1) || Qeq_bool q (3 # 1)
  | RawText _ => false
  end.

(** The dictionary [fetch_order] returns; [info_side] is
    [resp["info"]["side"]], the exchange's side code. *)
Module RawOrder.
Record t : Type :=
  { id : string; symbol : string; type : string; side : string; price : Q;
    amount : Q; filled : Q; remaining : Q; timestamp : Z;
    info_side : raw_value }.
End RawOrder.

(** A row [date, open, high, low, close, volume] of [fetch_ohlcv]. *)
Definition candle : Type := (Z * Q * Q * Q * Q * Q)%type.

(** An entry of [self.market]. *)
Record MarketInfo : Type := { contractSize : Q }.

(** ** The ccxt session

    Each field gives the outcome of the method of that name on the given
    arguments. *)
Module Ccxt.
Record Session : Type :=
  { load_markets : Py.outcome (gmap string MarketInfo);
    close : Py.outcome unit;
    fetch_ohlcv : string -> string -> string -> string -> Py.outcome (list candle);
    fetch_balance : Py.outcome (list BalanceEntry.t);
    set_leverage : Z -> string -> string -> string -> Py.outcome unit;
    fetch_positions : list string -> Py.outcome (list RawPosition.t);
    amount_to_precision : string -> Q -> Py.outcome string;
    price_to_precision : string -> Q -> Py.outcome string;
    create_order : string -> string -> string -> string -> Q -> bool -> string -> Z ->
                   Py.outcome CreatedOrder.t;
    fetch_order : string -> string -> Py.outcome RawOrder.t;
    cancel_orders : list string -> string -> bool -> Py.outcome (list string) }.
End Ccxt.

(** ** class PerpBitmart *)

(** The instance: [market] is [None] until [load_markets] has run. *)
Record PerpBitmart : Type :=
  { _auth : bool;
    _session : Ccxt.Session;
    market : option (gmap string MarketInfo) }.

Section Methods.
Import Py.
Local Open Scope string_scope.

(** Truth value of an optional number ([None] and zero are falsy). *)
Definition truthy (x : option Q) : bool :=
  match x with
  | None => false
  | Some v => negb (Qeq_bool v 0)
  end.

(** [x if x else 0] *)
Definition or_zero (x : option Q) : Q :=
  if truthy x then default 0%Q x else 0%Q.

(** The instance [__init__] builds: without a secret it is
    unauthenticated; the market table is not there yet. *)
Definition new (secret_api : option string) (session : Ccxt.Session) : PerpBitmart :=
  {| _auth := match secret_api with None => false | Some _ => true end;
     _session := session;
     market := None |}.

(** [__init__]: it also sets the precision of the current decimal
    context. *)
Definition init (secret_api : option string) (session : Ccxt.Session)
  : M PerpBitmart :=
  _ ← set_prec Decimal.prec;
  mret (new secret_api session).

(** [load_markets] returns the instance with [self.market] set. *)
Definition load_markets (self : PerpBitmart) : M PerpBitmart :=
  m ← session_call CallLoadMarkets (Ccxt.load_markets (_session self));
  mret {| _auth := _auth self; _session := _session self; market := Some m |}.

Definition close (self : PerpBitmart) : M unit :=
  session_call CallClose (Ccxt.close (_session self)).

Definition ext_pair_to_pair (ext_pair : string) : string :=
  String.append ext_pair ":USDT".

Definition pair_to_ext_pair (pair : string) : string :=
  PyStr.replace ":USDT" EmptyString pair.

Definition get_pair_info (self : PerpBitmart) (ext_pair : string)
  : M (option MarketInfo) :=
  let pair := ext_pair_to_pair ext_pair in
  match market self with
  | None => raise (AttributeError "market")
  | Some market =>
      match market !! pair with
      | Some info => mret (Some info)
      | None => mret None
      end
  end.

(** [info["contractSize"]], where [info] may be [None]. *)
Definition get_contractSize (info : option MarketInfo) : M Q :=
  match info with
  | None => raise TypeError
  | Some i => mret (contractSize i)
  end.

Definition price_to_precision (self : PerpBitmart) (pair : string) (price : Q)
  : M string :=
  let pair := ext_pair_to_pair pair in
  session_call (CallPriceToPrecision pair price)
               (Ccxt.price_to_precision (_session self) pair price).

(** *** get_last_ohlcv *)

Definition bitmart_limit : Z := 500.

Definition ts_dict : list (string * positive) :=
  [ ("1m", 1 * 60 * 1000); ("5m", 5 * 60 * 1000); ("15m", 15 * 60 * 1000);
    ("1h", 60 * 60 * 1000); ("2h", 2 * 60 * 60 * 1000);
    ("4h", 4 * 60 * 60 * 1000); ("1d", 24 * 60 * 60 * 1000) ]%positive.

(** [ts_dict[timeframe]] *)
Fixpoint dict_get {V} (d : list (string * V)) (key : string) : option V :=
  match d with
  | [] => None
  | (k, v) :: d' => if String.eqb k key then Some v else dict_get d' key
  end.

(** The [while current_ts < end_ts] loop: the pairs
    [(current_ts, req_end_ts)], in the order the tasks are appended. *)
Equations? ohlcv_windows (interval : positive) (current_ts end_ts : Z)
  : list (Z * Z)
  by wf (Z.to_nat ((end_ts - current_ts) / (bitmart_limit * Z.pos interval + 1) + 1))
        lt :=
  ohlcv_windows interval current_ts end_ts with Z_lt_dec current_ts end_ts := {
    | left _ =>
        let req_end_ts := Z.min (current_ts + bitmart_limit * Z.pos interval) end_ts in
        (current_ts, req_end_ts)
          :: ohlcv_windows interval
               (current_ts + (bitmart_limit * Z.pos interval + 1)) end_ts;
    | right _ => [] }.
Proof.
  unfold bitmart_limit.
  set (step := 500 * Z.pos interval + 1).
  assert (Hstep : 0 < step) by (unfold step; lia).
  replace (end_ts - (current_ts + step)) with ((end_ts - current_ts) + (-1) * step)
    by lia.
  rewrite Z.div_add by lia.
  assert (0 <= (end_ts - current_ts) / step) by (apply Z.div_pos; lia).
  lia.
Qed.

(** [int(ts / 1000)]: true division, then truncation towards zero.  The
    division is one of floats; its result truncates to the integer
    quotient, which is what is defined here, for every [ts] below
    [2^44 * 1000] in magnitude, far beyond any time in milliseconds. *)
Definition ms_to_s (ts : Z) : Z := Z.quot ts 1000.

(** The [start_time] and [end_time] parameters of one request. *)
Definition request_params (w : Z * Z) : string * string :=
  (PyStr.str_of_int (ms_to_s (fst w)), PyStr.str_of_int (ms_to_s (snd w))).

(** The windows asked for, given [end_ts = int(time.time() * 1000)]. *)
Definition get_last_ohlcv_windows (end_ts : Z) (timeframe : string) (limit : Z)
  : outcome (list (Z * Z)) :=
  match dict_get ts_dict timeframe with
  | None => Raised (KeyError timeframe)
  | Some interval =>
      let start_ts := end_ts - limit * Z.pos interval in
      Returned (ohlcv_windows interval start_ts end_ts)
  end.

(** Up to [ohlcv_list]: one task per window, gathered, and the rows
    chained in task order (the reshaping into a data frame sorted by date
    is left out). *)
Definition get_last_ohlcv (self : PerpBitmart) (end_ts : Z)
    (pair timeframe : string) (limit : Z) : M (list candle) :=
  let pair := ext_pair_to_pair pair in
  windows ← lift (get_last_ohlcv_windows end_ts timeframe limit);
  let tasks :=
    map (fun w =>
           let '(start_time, end_time) := request_params w in
           (CallFetchOhlcv pair timeframe start_time end_time,
            Ccxt.fetch_ohlcv (_session self) pair timeframe start_time end_time))
        windows in
  ohlcv_unpack ← gather tasks;
  mret (concat ohlcv_unpack).

(** *** get_balance *)

Definition get_balance (self : PerpBitmart) : M UsdtBalance.t :=
  resp_data ← session_call CallFetchBalance (Ccxt.fetch_balance (_session self));
  match filter (fun r => BalanceEntry.currency r = "USDT") resp_data with
  | [] => raise IndexError
  | usdt_data :: _ =>
      mret {| UsdtBalance.total := to_float (BalanceEntry.equity usdt_data);
              UsdtBalance.free := to_float (BalanceEntry.available_balance usdt_data);
              UsdtBalance.used := to_float (BalanceEntry.position_deposit usdt_data) |}
  end.

(** *** set_margin_mode_and_leverage *)

Definition set_margin_mode_and_leverage (self : PerpBitmart)
    (pair margin_mode : string) (leverage : Z) : M Info.t :=
  if negb (bool_decide (margin_mode ∈ ["cross"; "isolated"])) then
    raise (Exception "Margin mode must be either 'cross' or 'isolated'")
  else
    let pair := ext_pair_to_pair pair in
    _ ← try_except
          (session_call (CallSetLeverage leverage pair margin_mode margin_mode)
             (Ccxt.set_leverage (_session self) leverage pair margin_mode margin_mode))
          (fun e => raise e);
    mret {| Info.success := true;
            Info.message :=
              String.append "Margin mode and leverage set to "
                (String.append margin_mode
                   (String.append " and "
                      (String.append (PyStr.str_of_int leverage) "x"))) |}.

(** *** get_open_positions *)

(** The body of the [for position in resp] loop.  [Position(...)]
    evaluates its arguments in order, so the product for [size] and the
    rounding for [usd_size] come before the division. *)
Definition normalize_position (position : RawPosition.t) : M Position.t :=
  let liquidation_price := or_zero (RawPosition.liquidationPrice position) in
  let take_profit_price := or_zero (RawPosition.takeProfitPrice position) in
  let stop_loss_price := or_zero (RawPosition.stopLossPrice position) in
  let hedge_mode := default false (RawPosition.hedged position) in
  prec ← get_prec;
  let size :=
    Decimal.mul prec (RawPosition.contracts position)
      (RawPosition.contractSize position) in
  let usd_size := py_round (RawPosition.markPrice position) 2 in
  current_price ←
    lift (Decimal.div prec (RawPosition.markPrice position)
            (Decimal.mul prec (RawPosition.contracts position)
                         (RawPosition.contractSize position)));
  mret {| Position.pair := pair_to_ext_pair (RawPosition.symbol position);
          Position.side := RawPosition.side position;
          Position.size := to_float size;
          Position.usd_size := usd_size;
          Position.entry_price := RawPosition.entryPrice position;
          Position.current_price := to_float current_price;
          Position.unrealizedPnl := RawPosition.unrealizedPnl position;
          Position.liquidation_price := liquidation_price;
          Position.margin_mode := RawPosition.info_margin_type position;
          Position.leverage := RawPosition.leverage position;
          Position.hedge_mode := hedge_mode;
          Position.open_timestamp := RawPosition.info_open_timestamp position;
          Position.take_profit_price := take_profit_price;
          Position.stop_loss_price := stop_loss_price |}.

Definition get_open_positions (self : PerpBitmart) (pairs : list string)
  : M (list Position.t) :=
  let pairs := map ext_pair_to_pair pairs in
  resp ← session_call (CallFetchPositions pairs)
                      (Ccxt.fetch_positions (_session self) pairs);
  for_each normalize_position resp.

(** *** get_order_by_id *)

Definition get_order_by_id (self : PerpBitmart) (order_id pair : string)
  : M Order.t :=
  info ← get_pair_info self pair;
  contract_size ← get_contractSize info;
  let pair := ext_pair_to_pair pair in
  resp ← session_call (CallFetchOrder order_id pair)
                      (Ccxt.fetch_order (_session self) order_id pair);
  let reduce := in_2_3 (RawOrder.info_side resp) in
  prec ← get_prec;
  mret {| Order.id := RawOrder.id resp;
          Order.pair := pair_to_ext_pair (RawOrder.symbol resp);
          Order.type := RawOrder.type resp;
          Order.side := RawOrder.side resp;
          Order.price := RawOrder.price resp;
          Order.size :=
            to_float (Decimal.mul prec (RawOrder.amount resp) contract_size);
          Order.reduce := reduce;
          Order.filled :=
            to_float (Decimal.mul prec (RawOrder.filled resp) contract_size);
          Order.remaining :=
            to_float (Decimal.mul prec (RawOrder.remaining resp) contract_size);
          Order.timestamp := RawOrder.timestamp resp |}.

(** *** place_order

    The result is [None] where Python returns [None]. *)
Definition place_order (self : PerpBitmart) (pair side : string) (price size : Q)
    (type : string) (reduce : bool) (margin_mode : string) (leverage : Z)
    (error : bool) : M (option Order.t) :=
  try_except
    (info ← get_pair_info self pair;
     contract_size ← get_contractSize info;
     let pair := ext_pair_to_pair pair in
     prec ← get_prec;
     size ← lift (Decimal.div prec size contract_size);
     amount ← session_call (CallAmountToPrecision pair size)
                (Ccxt.amount_to_precision (_session self) pair size);
     resp ← session_call
              (CallCreateOrder pair type side amount price reduce margin_mode leverage)
              (Ccxt.create_order (_session self) pair type side amount price reduce
                 margin_mode leverage);
     let order_id := CreatedOrder.id resp in
     let pair := pair_to_ext_pair (CreatedOrder.symbol resp) in
     order ← get_order_by_id self order_id pair;
     mret (Some order))
    (fun e =>
       if error then raise e
       else _ ← print e; mret None).

(** *** cancel_orders and cancel_trigger_orders *)

Definition cancel_orders (self : PerpBitmart) (pair : string) (ids : list string)
  : M Info.t :=
  try_except
    (let pair := ext_pair_to_pair pair in
     resp ← session_call (CallCancelOrders ids pair false)
              (Ccxt.cancel_orders (_session self) ids pair false);
     mret {| Info.success := true;
             Info.message :=
               String.append (PyStr.str_of_int (Z.of_nat (length resp)))
                             " Orders cancelled" |})
    (fun e => mret {| Info.success := false;
                      Info.message := "Error or no orders to cancel" |}).

Definition cancel_trigger_orders (self : PerpBitmart) (pair : string)
    (ids : list string) : M Info.t :=
  try_except
    (let pair := ext_pair_to_pair pair in
     resp ← session_call (CallCancelOrders ids pair true)
              (Ccxt.cancel_orders (_session self) ids pair true);
     mret {| Info.success := true;
             Info.message :=
               String.append (PyStr.str_of_int (Z.of_nat (length resp)))
                             " Trigger Orders cancelled" |})
    (fun e => mret {| Info.success := false;
                      Info.message := "Error or no orders to cancel" |}).

End Methods.

(** ** Sample sessions and instances *)

Section Samples.
Import Py.
Local Open Scope string_scope.

Definition sample_order : RawOrder.t :=
  {| RawOrder.id := "42"; RawOrder.symbol := "BTC-USDT:USDT";
     RawOrder.type := "limit"; RawOrder.side := "buy";
     RawOrder.price := 30000 # 1; RawOrder.amount := 5 # 1;
     RawOrder.filled := 2 # 1; RawOrder.remaining := 3 # 1;
     RawOrder.timestamp := 1700000000000;
     RawOrder.info_side := RawNumber (2 # 1) |}.

Definition sample_position : RawPosition.t :=
  {| RawPosition.symbol := "BTC-USDT:USDT"; RawPosition.side := "long";
     RawPosition.contracts := 5 # 1; RawPosition.contractSize := 1 # 1000;
     RawPosition.markPrice := 15012345 # 100000;
     RawPosition.entryPrice := 30000 # 1; RawPosition.unrealizedPnl := 1 # 4;
     RawPosition.leverage := 3 # 1; RawPosition.liquidationPrice := Some (20000 # 1);
     RawPosition.takeProfitPrice := None; RawPosition.stopLossPrice := Some (0 # 1);
     RawPosition.hedged := None; RawPosition.info_margin_type := "cross";
     RawPosition.info_open_timestamp := 1690000000000 |}.

(** A position that has been closed: no contracts and no value. *)
Definition empty_position : RawPosition.t :=
  {| RawPosition.symbol := "ETH-USDT:USDT"; RawPosition.side := "long";
     RawPosition.contracts := 0 # 1; RawPosition.contractSize := 1 # 100;
     RawPosition.markPrice := 0 # 1;
     RawPosition.entryPrice := 2000 # 1; RawPosition.unrealizedPnl := 0 # 1;
     RawPosition.leverage := 3 # 1; RawPosition.liquidationPrice := None;
     RawPosition.takeProfitPrice := None; RawPosition.stopLossPrice := None;
     RawPosition.hedged := Some false; RawPosition.info_margin_type := "cross";
     RawPosition.info_open_timestamp := 1690000000000 |}.

Definition sample_balance : list BalanceEntry.t :=
  [ {| BalanceEntry.currency := "BTC"; BalanceEntry.equity := 1 # 2;
       BalanceEntry.available_balance := 1 # 2;
       BalanceEntry.position_deposit := 0 # 1 |};
    {| BalanceEntry.currency := "USDT"; BalanceEntry.equity := 1000 # 1;
       BalanceEntry.available_balance := 750 # 1;
       BalanceEntry.position_deposit := 250 # 1 |} ].

Definition sample_market : gmap string MarketInfo :=
  {[ "BTC-USDT:USDT" := {| contractSize := 1 # 1000 |};
     "PEPE-USDT:USDT" := {| contractSize := 1 # 1 |} ]}.

(** A session on which every call succeeds. *)
Definition sample_session : Ccxt.Session :=
  {| Ccxt.load_markets := Returned sample_market;
     Ccxt.close := Returned tt;
     Ccxt.fetch_ohlcv := fun _ _ _ _ => Returned [];
     Ccxt.fetch_balance := Returned sample_balance;
     Ccxt.set_leverage := fun _ _ _ _ => Returned tt;
     Ccxt.fetch_positions := fun _ => Returned [sample_position];
     Ccxt.amount_to_precision := fun _ _ => Returned "5";
     Ccxt.price_to_precision := fun _ _ => Returned "30000.0";
     Ccxt.create_order := fun symbol _ _ _ _ _ _ _ =>
       Returned {| CreatedOrder.id := "42"; CreatedOrder.symbol := symbol |};
     Ccxt.fetch_order := fun _ _ => Returned sample_order;
     Ccxt.cancel_orders := fun ids _ _ => Returned ids |}.

(** A session on which every call that goes to the exchange fails. *)
Definition offline_session : Ccxt.Session :=
  {| Ccxt.load_markets := Raised (SessionError "NetworkError");
     Ccxt.close := Returned tt;
     Ccxt.fetch_ohlcv := fun _ _ _ _ => Raised (SessionError "NetworkError");
     Ccxt.fetch_balance := Raised (SessionError "NetworkError");
     Ccxt.set_leverage := fun _ _ _ _ => Raised (SessionError "NetworkError");
     Ccxt.fetch_positions := fun _ => Raised (SessionError "NetworkError");
     Ccxt.amount_to_precision := fun _ _ => Returned "5";
     Ccxt.price_to_precision := fun _ _ => Returned "30000.0";
     Ccxt.create_order := fun _ _ _ _ _ _ _ _ => Raised (SessionError "NetworkError");
     Ccxt.fetch_order := fun _ _ => Raised (SessionError "NetworkError");
     Ccxt.cancel_orders := fun _ _ _ => Raised (SessionError "NetworkError") |}.

(** A session whose awaited calls are cancelled. *)
Definition cancelled_session : Ccxt.Session :=
  {| Ccxt.load_markets := Raised CancelledError;
     Ccxt.close := Returned tt;
     Ccxt.fetch_ohlcv := fun _ _ _ _ => Raised CancelledError;
     Ccxt.fetch_balance := Raised CancelledError;
     Ccxt.set_leverage := fun _ _ _ _ => Raised CancelledError;
     Ccxt.fetch_positions := fun _ => Raised CancelledError;
     Ccxt.amount_to_precision := fun _ _ => Returned "5";
     Ccxt.price_to_precision := fun _ _ => Returned "30000.0";
     Ccxt.create_order := fun _ _ _ _ _ _ _ _ => Raised CancelledError;
     Ccxt.fetch_order := fun _ _ => Raised CancelledError;
     Ccxt.cancel_orders := fun _ _ _ => Raised CancelledError |}.

(** A session that creates orders but cannot look them up. *)
Definition lookup_less_session : Ccxt.Session :=
  {| Ccxt.load_markets := Returned sample_market;
     Ccxt.close := Returned tt;
     Ccxt.fetch_ohlcv := fun _ _ _ _ => Returned [];
     Ccxt.fetch_balance := Returned sample_balance;
     Ccxt.set_leverage := fun _ _ _ _ => Returned tt;
     Ccxt.fetch_positions := fun _ => Returned [sample_position; empty_position];
     Ccxt.amount_to_precision := fun _ _ => Returned "5";
     Ccxt.price_to_precision := fun _ _ => Returned "30000.0";
     Ccxt.create_order := fun symbol _ _ _ _ _ _ _ =>
       Returned {| CreatedOrder.id := "42"; CreatedOrder.symbol := symbol |};
     Ccxt.fetch_order := fun _ _ => Raised (SessionError "OrderNotFound");
     Ccxt.cancel_orders := fun ids _ _ => Returned ids |}.

(** An order of 12345678901 contracts, 11 significant digits. *)
Definition bulk_order : RawOrder.t :=
  {| RawOrder.id := "77"; RawOrder.symbol := "PEPE-USDT:USDT";
     RawOrder.type := "limit"; RawOrder.side := "sell";
     RawOrder.price := 1 # 100000; RawOrder.amount := 12345678901 # 1;
     RawOrder.filled := 0 # 1; RawOrder.remaining := 12345678901 # 1;
     RawOrder.timestamp := 1700000000000;
     RawOrder.info_side := RawNumber (4 # 1) |}.

Definition bulk_session : Ccxt.Session :=
  {| Ccxt.load_markets := Returned sample_market;
     Ccxt.close := Returned tt;
     Ccxt.fetch_ohlcv := fun _ _ _ _ => Returned [];
     Ccxt.fetch_balance := Returned sample_balance;
     Ccxt.set_leverage := fun _ _ _ _ => Returned tt;
     Ccxt.fetch_positions := fun _ => Returned [];
     Ccxt.amount_to_precision := fun _ _ => Returned "12345678901";
     Ccxt.price_to_precision := fun _ _ => Returned "0.00001";
     Ccxt.create_order := fun symbol _ _ _ _ _ _ _ =>
       Returned {| CreatedOrder.id := "77"; CreatedOrder.symbol := symbol |};
     Ccxt.fetch_order := fun _ _ => Returned bulk_order;
     Ccxt.cancel_orders := fun ids _ _ => Returned ids |}.

(** [session], except that the balance payload is [payload]. *)
Definition with_balance (session : Ccxt.Session) (payload : list BalanceEntry.t)
  : Ccxt.Session :=
  {| Ccxt.load_markets := Ccxt.load_markets session;
     Ccxt.close := Ccxt.close session;
     Ccxt.fetch_ohlcv := Ccxt.fetch_ohlcv session;
     Ccxt.fetch_balance := Returned payload;
     Ccxt.set_leverage := Ccxt.set_leverage session;
     Ccxt.fetch_positions := Ccxt.fetch_positions session;
     Ccxt.amount_to_precision := Ccxt.amount_to_precision session;
     Ccxt.price_to_precision := Ccxt.price_to_precision session;
     Ccxt.create_order := Ccxt.create_order session;
     Ccxt.fetch_order := Ccxt.fetch_order session;
     Ccxt.cancel_orders := Ccxt.cancel_orders session |}.

(** [session], except that the positions are [resp]. *)
Definition with_positions (session : Ccxt.Session) (resp : list RawPosition.t)
  : Ccxt.Session :=
  {| Ccxt.load_markets := Ccxt.load_markets session;
     Ccxt.close := Ccxt.close session;
     Ccxt.fetch_ohlcv := Ccxt.fetch_ohlcv session;
     Ccxt.fetch_balance := Ccxt.fetch_balance session;
     Ccxt.set_leverage := Ccxt.set_leverage session;
     Ccxt.fetch_positions := fun _ => Returned resp;
     Ccxt.amount_to_precision := Ccxt.amount_to_precision session;
     Ccxt.price_to_precision := Ccxt.price_to_precision session;
     Ccxt.create_order := Ccxt.create_order session;
     Ccxt.fetch_order := Ccxt.fetch_order session;
     Ccxt.cancel_orders := Ccxt.cancel_orders session |}.

(** [session], except that every order looked up is [resp]. *)
Definition with_order (session : Ccxt.Session) (resp : RawOrder.t) : Ccxt.Session :=
  {| Ccxt.load_markets := Ccxt.load_markets session;
     Ccxt.close := Ccxt.close session;
     Ccxt.fetch_ohlcv := Ccxt.fetch_ohlcv session;
     Ccxt.fetch_balance := Ccxt.fetch_balance session;
     Ccxt.set_leverage := Ccxt.set_leverage session;
     Ccxt.fetch_positions := Ccxt.fetch_positions session;
     Ccxt.amount_to_precision := Ccxt.amount_to_precision session;
     Ccxt.price_to_precision := Ccxt.price_to_precision session;
     Ccxt.create_order := Ccxt.create_order session;
     Ccxt.fetch_order := fun _ _ => Returned resp;
     Ccxt.cancel_orders := Ccxt.cancel_orders session |}.

(** The sample order with its side code as the text "2". *)
Definition text_side_order : RawOrder.t :=
  {| RawOrder.id := "42"; RawOrder.symbol := "BTC-USDT:USDT";
     RawOrder.type := "limit"; RawOrder.side := "buy";
     RawOrder.price := 30000 # 1; RawOrder.amount := 5 # 1;
     RawOrder.filled := 2 # 1; RawOrder.remaining := 3 # 1;
     RawOrder.timestamp := 1700000000000;
     RawOrder.info_side := RawText "2" |}.

(** An order of [2^1100] contracts. *)
Definition huge_order : RawOrder.t :=
  {| RawOrder.id := "43"; RawOrder.symbol := "BTC-USDT:USDT";
     RawOrder.type := "limit"; RawOrder.side := "buy";
     RawOrder.price := 30000 # 1; RawOrder.amount := inject_Z (2 ^ 1100);
     RawOrder.filled := 0 # 1; RawOrder.remaining := inject_Z (2 ^ 1100);
     RawOrder.timestamp := 1700000000000;
     RawOrder.info_side := RawNumber (1 # 1) |}.

(** A balance of [2^53 + 1], which no binary64 number equals. *)
Definition odd_balance : list BalanceEntry.t :=
  [ {| BalanceEntry.currency := "USDT";
       BalanceEntry.equity := 9007199254740993 # 1;
       BalanceEntry.available_balance := 9007199254740993 # 1;
       BalanceEntry.position_deposit := 0 # 1 |} ].

(** Contracts and contract size of [2^700] each. *)
Definition huge_position : RawPosition.t :=
  {| RawPosition.symbol := "BTC-USDT:USDT"; RawPosition.side := "long";
     RawPosition.contracts := inject_Z (2 ^ 700);
     RawPosition.contractSize := inject_Z (2 ^ 700);
     RawPosition.markPrice := 1 # 1;
     RawPosition.entryPrice := 1 # 1; RawPosition.unrealizedPnl := 0 # 1;
     RawPosition.leverage := 1 # 1; RawPosition.liquidationPrice := None;
     RawPosition.takeProfitPrice := None; RawPosition.stopLossPrice := None;
     RawPosition.hedged := None; RawPosition.info_margin_type := "cross";
     RawPosition.info_open_timestamp := 1690000000000 |}.

(** 12345678901 contracts of size 1. *)
Definition bulk_position : RawPosition.t :=
  {| RawPosition.symbol := "PEPE-USDT:USDT"; RawPosition.side := "long";
     RawPosition.contracts := 12345678901 # 1;
     RawPosition.contractSize := 1 # 1;
     RawPosition.markPrice := 12345678901 # 1;
     RawPosition.entryPrice := 1 # 1; RawPosition.unrealizedPnl := 0 # 1;
     RawPosition.leverage := 1 # 1; RawPosition.liquidationPrice := None;
     RawPosition.takeProfitPrice := None; RawPosition.stopLossPrice := None;
     RawPosition.hedged := None; RawPosition.info_margin_type := "cross";
     RawPosition.info_open_timestamp := 1690000000000 |}.

(** No contracts, but a mark price. *)
Definition flat_position : RawPosition.t :=
  {| RawPosition.symbol := "ETH-USDT:USDT"; RawPosition.side := "long";
     RawPosition.contracts := 0 # 1; RawPosition.contractSize := 1 # 100;
     RawPosition.markPrice := 2000 # 1;
     RawPosition.entryPrice := 2000 # 1; RawPosition.unrealizedPnl := 0 # 1;
     RawPosition.leverage := 3 # 1; RawPosition.liquidationPrice := None;
     RawPosition.takeProfitPrice := None; RawPosition.stopLossPrice := None;
     RawPosition.hedged := Some false; RawPosition.info_margin_type := "cross";
     RawPosition.info_open_timestamp := 1690000000000 |}.

Definition sample_adapter (session : Ccxt.Session) : PerpBitmart :=
  {| _auth := true; _session := session; market := Some sample_market |}.

End Samples.

(** ** Predicates used in the statements *)

Section Predicates.
Import Py.
Local Open Scope string_scope.

(** An external pair is well formed when the internal suffix does not
    occur in it. *)
Definition well_formed_ext_pair (p : string) : Prop :=
  PyStr.contains ":USDT" p = false.

(** The failures of an order placement that come from the session, in a
    decimal context of precision [prec]: the market table has the pair,
    the size converts to contracts and is rounded by the session, and then
    either [create_order] raises, or it returns and the lookup of the
    order it names raises. *)
Inductive underlying_failure (self : PerpBitmart) (prec : Z) (pair side : string)
    (price size : Q) (type : string) (reduce : bool) (margin_mode : string)
    (leverage : Z) (e : exn) : Prop :=
| creation_fails (m : gmap string MarketInfo) (info : MarketInfo)
    (contracts : Q) (amount : string) :
    market self = Some m ->
    m !! ext_pair_to_pair pair = Some info ->
    Decimal.div prec size (contractSize info) = Returned contracts ->
    Ccxt.amount_to_precision (_session self) (ext_pair_to_pair pair) contracts
    = Returned amount ->
    Ccxt.create_order (_session self) (ext_pair_to_pair pair) type side amount
      price reduce margin_mode leverage = Raised e ->
    underlying_failure self prec pair side price size type reduce margin_mode
      leverage e
| lookup_fails (m : gmap string MarketInfo) (info : MarketInfo)
    (contracts : Q) (amount : string) (resp : CreatedOrder.t) :
    market self = Some m ->
    m !! ext_pair_to_pair pair = Some info ->
    Decimal.div prec size (contractSize info) = Returned contracts ->
    Ccxt.amount_to_precision (_session self) (ext_pair_to_pair pair) contracts
    = Returned amount ->
    Ccxt.create_order (_session self) (ext_pair_to_pair pair) type side amount
      price reduce margin_mode leverage = Returned resp ->
    fst (run (get_order_by_id self (CreatedOrder.id resp)
                (pair_to_ext_pair (CreatedOrder.symbol resp)))) = Raised e ->
    underlying_failure self prec pair side price size type reduce margin_mode
      leverage e.

Local Open Scope Q_scope.

(** What the loop body computes for one raw position [raw] in a decimal
    context of precision [prec], when it returns [p]. *)
Definition normalizes (prec : Z) (raw : RawPosition.t) (p : Position.t) : Prop :=
  let c := RawPosition.contracts raw in
  let s := RawPosition.contractSize raw in
  let m := RawPosition.markPrice raw in
  ~ c * s == 0
  /\ Position.size p = to_float (Decimal.mul prec c s)
  /\ Position.current_price p
     = to_float (Rounding.round_sig 10 prec (m / Decimal.mul prec c s))
  /\ Position.usd_size p = py_round m 2.

(** Zero, or a magnitude from [2^-1021] to [2^1022]: a number that, with
    what is near it, a binary64 holds with full precision. *)
Definition in_float_range (x : Q) : Prop :=
  x == 0
  \/ (Qmake 1 (2 ^ 1021)%positive <= Qabs x /\ Qabs x <= inject_Z (2 ^ 1022)).

(** The float [v] is finite and within the relative error [tol] of [x]. *)
Definition close_to (v : pyfloat) (x tol : Q) : Prop :=
  exists q, v = Finite q /\ Qabs (q - x) <= tol * Qabs x.

(** [k] is the integer nearest to [x], the even one of two that are
    equally near. *)
Definition nearest_even (x : Q) (k : Z) : Prop :=
  Qabs (x - inject_Z k) <= 1 # 2
  /\ (Qabs (x - inject_Z k) == 1 # 2 -> Z.even k = true).

(** The fields a raw position hands over to its record. *)
Definition carried_over (raw : RawPosition.t) (p : Position.t) : Prop :=
  Position.pair p = pair_to_ext_pair (RawPosition.symbol raw)
  /\ Position.side p = RawPosition.side raw
  /\ Position.entry_price p = RawPosition.entryPrice raw
  /\ Position.unrealizedPnl p = RawPosition.unrealizedPnl raw
  /\ Position.leverage p = RawPosition.leverage raw
  /\ Position.margin_mode p = RawPosition.info_margin_type raw
  /\ Position.open_timestamp p = RawPosition.info_open_timestamp raw
  /\ Position.liquidation_price p == default 0 (RawPosition.liquidationPrice raw)
  /\ Position.take_profit_price p == default 0 (RawPosition.takeProfitPrice raw)
  /\ Position.stop_loss_price p == default 0 (RawPosition.stopLossPrice raw)
  /\ (Position.hedge_mode p = true <-> RawPosition.hedged raw = Some true).

End Predicates.

Ltac unfold_monad :=
  unfold Py.run, mbind, M_bind, mret, M_ret, Py.bind, Py.ret, Py.raise, Py.lift,
    Py.session_call, Py.try_except, Py.print, Py.gather, Py.get_prec,
    Py.set_prec in *.

(** * Properties *)

(** ** Facts about rounding *)

Lemma Qabs_diff_le (a : Z) (b : positive) (xn : Z) (xd e : positive) :
  Z.abs (a * Z.pos xd - xn * Z.pos b) * Z.pos e <= Z.abs xn * Z.pos b ->
  (Qabs ((a # b) - (xn # xd)) <= (1 # e) * Qabs (xn # xd))%Q.
Proof.
  intros H. unfold Qle, Qminus, Qplus, Qopp, Qmult, Qabs. cbn [Qnum Qden].
  rewrite !Pos2Z.inj_mul.
  replace (a * Z.pos xd + - xn * Z.pos b) with (a * Z.pos xd - xn * Z.pos b) by lia.
  nia.
Qed.

Section RoundingFacts.
Import Rounding.

Variable beta : Z.
Hypothesis beta_ge_2 : 2 <= beta.

Lemma Zdigits_aux_zero fuel n : n <= 0 -> Zdigits_aux fuel beta n = 0.
Proof.
  intros Hn. destruct fuel as [|f]; simpl; [reflexivity|].
  destruct (Z.leb_spec n 0); [reflexivity | lia].
Qed.

Lemma Zdigits_aux_spec fuel : forall n,
  0 < n -> n < 2 ^ Z.of_nat fuel ->
  1 <= Zdigits_aux fuel beta n /\
  beta ^ (Zdigits_aux fuel beta n - 1) <= n < beta ^ Zdigits_aux fuel beta n.
Proof.
  induction fuel as [|f IH]; intros n Hpos Hlt.
  - simpl in Hlt. lia.
  - cbn [Zdigits_aux]. destruct (Z.leb_spec n 0) as [?|_]; [lia|].
    assert (Hq : 0 <= n / beta) by (apply Z.div_pos; lia).
    assert (Hdm : n = beta * (n / beta) + n mod beta) by (apply Z.div_mod; lia).
    assert (Hm : 0 <= n mod beta < beta) by (apply Z.mod_pos_bound; lia).
    destruct (Z.eq_dec (n / beta) 0) as [Hz|Hnz].
    + rewrite Hz, Zdigits_aux_zero by lia.
      replace (1 + 0 - 1) with 0 by lia. replace (1 + 0) with 1 by lia.
      rewrite Z.pow_0_r, Z.pow_1_r. lia.
    + assert (Hlt' : n / beta < 2 ^ Z.of_nat f).
      { rewrite Nat2Z.inj_succ, Z.pow_succ_r in Hlt by lia. nia. }
      destruct (IH (n / beta) ltac:(lia) Hlt') as (HD & Hlo & Hhi).
      set (D := Zdigits_aux f beta (n / beta)) in *.
      replace (1 + D - 1) with (Z.succ (D - 1)) by lia.
      replace (1 + D) with (Z.succ D) by lia.
      rewrite !Z.pow_succ_r by lia.
      split; [lia|]. split; nia.
Qed.

Lemma Zdigits_spec n :
  0 < n ->
  1 <= Zdigits beta n /\ beta ^ (Zdigits beta n - 1) <= n < beta ^ Zdigits beta n.
Proof.
  intros Hn. unfold Zdigits. apply Zdigits_aux_spec; [exact Hn|].
  rewrite Nat2Z.inj_succ, Z2Nat.id by apply Z.log2_nonneg.
  apply Z.log2_spec; exact Hn.
Qed.

Lemma round_half_even_spec a b :
  0 < b -> 2 * Z.abs (round_half_even a b * b - a) <= b.
Proof.
  intros Hb. unfold round_half_even.
  assert (Hdm : a = b * (a / b) + a mod b) by (apply Z.div_mod; lia).
  assert (Hm : 0 <= a mod b < b) by (apply Z.mod_pos_bound; lia).
  destruct (Z.compare_spec (2 * (a mod b)) b) as [He|Hl|Hg];
    [destruct (Z.even (a / b))|..]; nia.
Qed.

Lemma scale_pos k : 0 < fst (scale beta k) /\ 0 < snd (scale beta k).
Proof.
  unfold scale. destruct (Z.leb_spec 0 k); simpl; split; try lia;
    apply Z.pow_pos_nonneg; lia.
Qed.

(** [up / down] really is [beta ^ k]: it is multiplicative in [k]. *)
Lemma scale_pred k :
  fst (scale beta (k - 1)) * snd (scale beta k) * beta
  = fst (scale beta k) * snd (scale beta (k - 1)).
Proof.
  unfold scale.
  destruct (Z.leb_spec 0 k) as [Hk|Hk], (Z.leb_spec 0 (k - 1)) as [Hk'|Hk'];
    simpl; try lia.
  - replace k with (Z.succ (k - 1)) at 2 by lia. rewrite Z.pow_succ_r by lia. lia.
  - assert (k = 0) by lia; subst k. simpl. rewrite Z.pow_1_r. lia.
  - replace (- (k - 1)) with (Z.succ (- k)) by lia. rewrite Z.pow_succ_r by lia. lia.
Qed.

Variable prec : Z.
Hypothesis prec_ge_1 : 1 <= prec.

Lemma sig_exponent_spec n d :
  0 < n -> 0 < d ->
  let k := sig_exponent beta prec n d in
  beta ^ (prec - 1) * (d * snd (scale beta k)) <= n * fst (scale beta k)
  /\ n * fst (scale beta k) < beta ^ prec * (d * snd (scale beta k)).
Proof.
  intros Hn Hd.
  destruct (Zdigits_spec n Hn) as (HDn & Hnlo & Hnhi).
  destruct (Zdigits_spec d Hd) as (HDd & Hdlo & Hdhi).
  unfold sig_exponent.
  set (Dn := Zdigits beta n) in *. set (Dd := Zdigits beta d) in *.
  set (k0 := prec + Dd - Dn).
  assert (Hp1 : 0 < beta ^ (prec - 1)) by (apply Z.pow_pos_nonneg; lia).
  assert (Hp : beta ^ prec = beta ^ (prec - 1) * beta).
  { replace prec with (Z.succ (prec - 1)) at 1 by lia.
    rewrite Z.pow_succ_r by lia. lia. }
  (* bounds at the first guess k0 *)
  assert (H0 : beta ^ (prec - 1) * (d * snd (scale beta k0))
               < n * fst (scale beta k0)
               /\ n * fst (scale beta k0)
                  < beta ^ prec * beta * (d * snd (scale beta k0))).
  { unfold scale. destruct (Z.leb_spec 0 k0) as [Hk|Hk]; simpl.
    - assert (E1 : beta ^ (Dn - 1) * beta ^ k0 = beta ^ (prec - 1) * beta ^ Dd).
      { rewrite <- !Z.pow_add_r by lia. f_equal. lia. }
      assert (E2 : beta ^ Dn * beta ^ k0 = beta ^ prec * beta * beta ^ (Dd - 1)).
      { rewrite <- (Z.pow_1_r beta) at 4. rewrite <- !Z.pow_add_r by lia. f_equal. lia. }
      assert (0 < beta ^ k0) by (apply Z.pow_pos_nonneg; lia).
      assert (0 < beta ^ prec * beta) by nia.
      split.
      + apply Z.lt_le_trans with (m := beta ^ (prec - 1) * beta ^ Dd); [nia|].
        rewrite <- E1. nia.
      + apply Z.lt_le_trans with (m := beta ^ Dn * beta ^ k0); [nia|].
        rewrite E2. nia.
    - assert (E1 : beta ^ (Dn - 1) = beta ^ (prec - 1) * beta ^ Dd * beta ^ (- k0)).
      { rewrite <- !Z.pow_add_r by lia. f_equal. lia. }
      assert (E2 : beta ^ Dn = beta ^ prec * beta * beta ^ (Dd - 1) * beta ^ (- k0)).
      { rewrite <- (Z.pow_1_r beta) at 3. rewrite <- !Z.pow_add_r by lia. f_equal. lia. }
      assert (0 < beta ^ (- k0)) by (apply Z.pow_pos_nonneg; lia).
      assert (0 < beta ^ prec * beta) by nia.
      split.
      + apply Z.lt_le_trans with (m := beta ^ (Dn - 1)); [|lia].
        rewrite E1. nia.
      + apply Z.lt_le_trans with (m := beta ^ Dn); [lia|].
        rewrite E2. nia. }
  destruct (scale beta k0) as [up down] eqn:Es. simpl in H0.
  destruct (Z.leb_spec (beta ^ prec * (d * down)) (n * up)) as [Hge|Hlt]; cbn zeta.
  - (* one digit too many: step the exponent down *)
    pose proof (scale_pred k0) as Hs. rewrite Es in Hs. simpl in Hs.
    pose proof (scale_pos (k0 - 1)) as [Hu' Hd'].
    pose proof (scale_pos k0) as [Hu Hdn]. rewrite Es in Hu, Hdn. simpl in Hu, Hdn.
    set (up' := fst (scale beta (k0 - 1))) in *.
    set (down' := snd (scale beta (k0 - 1))) in *.
    split.
    + apply Z.mul_le_mono_pos_r with (p := down * beta); [nia|].
      transitivity (beta ^ prec * (d * down) * down'); [nia|].
      transitivity (n * up * down'); [nia|]. nia.
    + apply Z.mul_lt_mono_pos_r with (p := down * beta); [nia|].
      apply Z.le_lt_trans with (m := n * up * down'); [nia|].
      apply Z.lt_le_trans with (m := beta ^ prec * beta * (d * down) * down'); [nia|nia].
  - rewrite Es. simpl. lia.
Qed.

(** Rounding to [prec] significant digits moves a number by at most half a
    unit in its last kept digit. *)
Lemma round_sig_rel_error (x : Q) :
  (Qabs (round_sig beta prec x - x) <= half_ulp beta prec * Qabs x)%Q.
Proof.
  destruct x as [xn xd]. unfold round_sig. cbn [Qnum Qden].
  destruct (Z.eqb_spec (Z.abs xn) 0) as [Hz|Hnz].
  - assert (xn = 0) by lia; subst xn.
    unfold Qle, Qminus, Qplus, Qopp, Qmult, Qabs, half_ulp; simpl. lia.
  - assert (Hn : 0 < Z.abs xn) by lia.
    pose proof (sig_exponent_spec (Z.abs xn) (Z.pos xd) Hn ltac:(lia)) as [Hlo _].
    cbn zeta in Hlo.
    set (k := sig_exponent beta prec (Z.abs xn) (Z.pos xd)) in *.
    pose proof (scale_pos k) as [Hup Hdown].
    destruct (scale beta k) as [up down]. cbn [fst snd] in *.
    pose proof (round_half_even_spec (Z.abs xn * up) (Z.pos xd * down) ltac:(nia)) as Hr.
    set (r := round_half_even (Z.abs xn * up) (Z.pos xd * down)) in *.
    rewrite Qred_correct. unfold half_ulp.
    assert (Hp1 : 0 < beta ^ (prec - 1)) by (apply Z.pow_pos_nonneg; lia).
    apply Qabs_diff_le.
    rewrite !Z2Pos.id by nia.
    assert (Habs : Z.abs (Z.sgn xn * r * down * Z.pos xd - xn * up)
                   = Z.abs (r * (Z.pos xd * down) - Z.abs xn * up)).
    { destruct xn as [|q|q]; cbn [Z.sgn Z.abs];
        first [lia | f_equal; lia | rewrite <- Z.abs_opp; f_equal; lia]. }
    rewrite Habs. nia.
Qed.

Lemma half_ulp_lt_1 : (half_ulp beta prec < 1)%Q.
Proof.
  assert (Hp1 : 0 < beta ^ (prec - 1)) by (apply Z.pow_pos_nonneg; lia).
  unfold half_ulp, Qlt; simpl. rewrite Z2Pos.id by lia. lia.
Qed.

(** Only zero rounds to zero. *)
Lemma round_sig_eq_0 (x : Q) : (round_sig beta prec x == 0 -> x == 0)%Q.
Proof.
  intros H0. pose proof (round_sig_rel_error x) as He.
  pose proof half_ulp_lt_1 as Hu.
  apply Qabs_Qle_condition in He. destruct He as [He1 He2].
  rewrite H0 in He1, He2. revert He1 He2.
  apply (Qabs_case x); intros Hs He1 He2; nra.
Qed.

End RoundingFacts.

Example round_sig_ex1 :
  Rounding.round_sig 10 10 (12345678901 # 1) = (12345678900 # 1)%Q.
Proof. reflexivity. Qed.

Example round_sig_ex2 :
  Rounding.round_sig 10 10 (1 # 3) = (3333333333 # 10000000000)%Q.
Proof. reflexivity. Qed.

Example round_sig_ex3 :
  Rounding.round_sig 10 10 (99999999995 # 10) = (10000000000 # 1)%Q.
Proof. reflexivity. Qed.

Example round_sig_ex4 :
  Rounding.round_sig 10 10 (-(10000000005 # 10000000000)) = (- (1 # 1))%Q.
Proof. reflexivity. Qed.

Example round_sig_ex5 :
  Rounding.round_sig 2 53 (1 # 10) = (3602879701896397 # 36028797018963968)%Q.
Proof. reflexivity. Qed.


(** ** Relative error of the arithmetic *)

Section ErrorBounds.
Local Open Scope Q_scope.

Lemma Qabs_split (u v w : Q) : u == v + w -> Qabs u <= Qabs v + Qabs w.
Proof. intros ->. apply Qabs_triangle. Qed.

(** Two steps, each with a relative error, compose. *)
Lemma rel_error_trans (x a b e1 e2 : Q) :
  0 <= e1 -> 0 <= e2 ->
  Qabs (a - x) <= e1 * Qabs x ->
  Qabs (b - a) <= e2 * Qabs a ->
  Qabs (b - x) <= (e1 + e2 + e1 * e2) * Qabs x.
Proof.
  intros He1 He2 Ha Hb.
  assert (Hax : Qabs a <= Qabs x + Qabs (a - x)).
  { apply Qabs_split. ring. }
  assert (Hbx : Qabs (b - x) <= Qabs (b - a) + Qabs (a - x)).
  { apply Qabs_split. ring. }
  pose proof (Qabs_nonneg x). pose proof (Qabs_nonneg a).
  pose proof (Qabs_nonneg (a - x)). pose proof (Qabs_nonneg (b - a)).
  revert Ha Hb Hax Hbx H H0 H1 H2.
  generalize (Qabs x) (Qabs a) (Qabs (a - x)) (Qabs (b - a)) (Qabs (b - x)).
  intros X A D1 D2 T Ha Hb Hax Hbx HX HA HD1 HD2.
  assert (e2 * A <= e2 * (X + D1)) by nra.
  assert (e2 * D1 <= e2 * (e1 * X)) by nra.
  nra.
Qed.

(** Dividing by a divisor that is off by a relative [e]. *)
Lemma rel_error_divisor (m p s e : Q) :
  0 <= e -> e < 1 -> ~ p == 0 -> ~ s == 0 ->
  Qabs (s - p) <= e * Qabs p ->
  (1 - e) * Qabs (m / s - m / p) <= e * Qabs (m / p).
Proof.
  intros He0 He1 Hp Hs Hsp.
  set (C := m / s). set (T := m / p).
  assert (HC : C * s == m) by (unfold C; field; exact Hs).
  assert (HT : T * p == m) by (unfold T; field; exact Hp).
  assert (Hprod : (C - T) * p == - (C * (s - p))).
  { transitivity (C * p - T * p); [ring|].
    transitivity (C * p - C * s); [rewrite HC, HT; reflexivity | ring]. }
  assert (Habs : Qabs (C - T) * Qabs p == Qabs C * Qabs (s - p)).
  { rewrite <- !Qabs_Qmult, Hprod, Qabs_opp. reflexivity. }
  assert (HCT : Qabs C <= Qabs T + Qabs (C - T)).
  { apply Qabs_split. ring. }
  assert (Hppos : 0 < Qabs p).
  { pose proof (Qabs_nonneg p) as Hnn. apply Qle_lteq in Hnn as [Hlt|Heq]; [exact Hlt|].
    exfalso. apply Hp. revert Heq. apply (Qabs_case p); intros; lra. }
  pose proof (Qabs_nonneg C). pose proof (Qabs_nonneg T).
  pose proof (Qabs_nonneg (C - T)). pose proof (Qabs_nonneg (s - p)).
  revert Habs HCT Hppos Hsp H H0 H1 H2.
  generalize (Qabs p) (Qabs C) (Qabs T) (Qabs (C - T)) (Qabs (s - p)).
  intros P' C' T' D S' Habs HCT Hppos Hsp HC' HT' HD HS'.
  assert (Hd : D <= e * C').
  { assert (D * P' <= e * C' * P') by nra. nra. }
  nra.
Qed.

(** Scaling a bound up. *)
Lemma rel_error_weaken (d e e' x : Q) :
  e <= e' -> d <= e * Qabs x -> d <= e' * Qabs x.
Proof.
  intros Hee Hd. pose proof (Qabs_nonneg x) as Hx. revert Hd Hx.
  generalize (Qabs x). intros X Hd Hx. nra.
Qed.

Lemma float_round_rel_error (x : Q) :
  Qabs (Rounding.round_sig 2 53 x - x) <= (1 # 9007199254740992) * Qabs x.
Proof. apply (round_sig_rel_error 2 ltac:(lia) 53 ltac:(lia) x). Qed.

(** With ten digits or more a [Decimal] result is within half a unit of
    the tenth. *)
Lemma Decimal_round_rel_error (p : Z) (x : Q) :
  (10 <= p)%Z ->
  Qabs (Rounding.round_sig 10 p x - x) <= (1 # 2000000000) * Qabs x.
Proof.
  intros Hp. eapply rel_error_weaken;
    [| apply (round_sig_rel_error 10 ltac:(lia) p ltac:(lia) x)].
  unfold Rounding.half_ulp, Qle. cbn [Qnum Qden].
  assert (Hpow : (10 ^ 9 <= 10 ^ (p - 1))%Z) by (apply Z.pow_le_mono_r; lia).
  rewrite Z2Pos.id by lia. change (10 ^ 9)%Z with 1000000000%Z in Hpow. lia.
Qed.

Lemma Decimal_mul_nonzero (p : Z) (x y : Q) :
  (1 <= p)%Z -> ~ x * y == 0 -> ~ Decimal.mul p x y == 0.
Proof.
  intros Hp Hxy H0. apply Hxy.
  apply (round_sig_eq_0 10 ltac:(lia) p Hp). exact H0.
Qed.

(** *** The conversion to [float] *)

Lemma min_normal_pos : 0 < min_normal.
Proof. reflexivity. Qed.

Lemma overflow_threshold_double :
  overflow_threshold == 2 * inject_Z (2 ^ 1023).
Proof. vm_compute. reflexivity. Qed.

Lemma max_safe_pos : 0 < inject_Z (2 ^ 1023).
Proof. reflexivity. Qed.

Lemma low_range_double : Qmake 1 (2 ^ 1021)%positive == 2 * min_normal.
Proof. vm_compute. reflexivity. Qed.

Lemma high_range_double : 2 * inject_Z (2 ^ 1022) == inject_Z (2 ^ 1023).
Proof. vm_compute. reflexivity. Qed.

Lemma round_half_even_0 (d : positive) : Rounding.round_half_even 0 (Z.pos d) = 0%Z.
Proof.
  unfold Rounding.round_half_even. rewrite Zdiv_0_l, Zmod_0_l. reflexivity.
Qed.

Lemma Qabs_eq_0 (x : Q) : x == 0 -> Qabs x == 0.
Proof. intros ->. reflexivity. Qed.

Lemma to_float_zero (x : Q) : x == 0 -> to_float x = Finite 0.
Proof.
  intros Hx. unfold to_float.
  destruct (Qle_bool min_normal (Qabs x)) eqn:Hle.
  - apply Qle_bool_iff in Hle. rewrite (Qabs_eq_0 x Hx) in Hle.
    pose proof min_normal_pos. lra.
  - assert (Hn : Qnum x = 0%Z) by (unfold Qeq in Hx; simpl in Hx; lia).
    rewrite Hn. change (0 * 2 ^ 1074)%Z with 0%Z. rewrite round_half_even_0.
    reflexivity.
Qed.

(** From [2^-1022] to [2^1023] the conversion is the rounding to 53
    bits. *)
Lemma to_float_normal (x : Q) :
  min_normal <= Qabs x -> Qabs x <= inject_Z (2 ^ 1023) ->
  to_float x = Finite (Rounding.round_sig 2 53 x).
Proof.
  intros Hlo Hhi. unfold to_float.
  apply Qle_bool_iff in Hlo. rewrite Hlo.
  destruct (Qle_bool overflow_threshold (Qabs (Rounding.round_sig 2 53 x))) eqn:Hover;
    [|reflexivity].
  exfalso. apply Qle_bool_iff in Hover.
  rewrite overflow_threshold_double in Hover.
  pose proof (float_round_rel_error x) as Hr.
  assert (Hsplit : Qabs (Rounding.round_sig 2 53 x)
                   <= Qabs x + Qabs (Rounding.round_sig 2 53 x - x))
    by (apply Qabs_split; ring).
  pose proof max_safe_pos as Hpos. pose proof (Qabs_nonneg x) as Hnn.
  revert Hover Hr Hsplit Hhi Hpos Hnn.
  generalize (Qabs (Rounding.round_sig 2 53 x)) (Qabs x)
             (Qabs (Rounding.round_sig 2 53 x - x)) (inject_Z (2 ^ 1023)).
  intros R X D B Hover Hr Hsplit Hhi Hpos Hnn. lra.
Qed.

(** A number within [e] of one in range converts to a float within
    [e + 2^-53 + e * 2^-53] of the latter. *)
Lemma to_float_of_approx (X V e : Q) :
  0 <= e -> e <= 1 # 2 ->
  in_float_range X ->
  Qabs (V - X) <= e * Qabs X ->
  close_to (to_float V) X
    (e + (1 # 9007199254740992) + e * (1 # 9007199254740992)).
Proof.
  intros He0 He1 [Hzero|[Hlo Hhi]] HV.
  - assert (HV0 : V == 0).
    { rewrite (Qabs_eq_0 X Hzero) in HV.
      apply Qabs_Qle_condition in HV. destruct HV as [H1 H2].
      rewrite Hzero in H1, H2. lra. }
    rewrite (to_float_zero V HV0). exists 0. split; [reflexivity|].
    assert (E : Qabs (0 - X) == 0) by (rewrite Hzero; reflexivity).
    rewrite E. pose proof (Qabs_nonneg X) as Hnn. revert Hnn.
    generalize (Qabs X). intros A Hnn. nra.
  - assert (HVX : Qabs V <= Qabs X + Qabs (V - X)) by (apply Qabs_split; ring).
    assert (HXV : Qabs X <= Qabs V + Qabs (X - V)) by (apply Qabs_split; ring).
    rewrite (Qabs_Qminus X V) in HXV.
    rewrite low_range_double in Hlo.
    pose proof high_range_double as Hdouble.
    pose proof min_normal_pos as Hmin.
    assert (Hrange : min_normal <= Qabs V /\ Qabs V <= inject_Z (2 ^ 1023)).
    { revert HV HVX HXV Hlo Hhi Hdouble Hmin.
      generalize (Qabs V) (Qabs X) (Qabs (V - X)) (inject_Z (2 ^ 1022))
                 (inject_Z (2 ^ 1023)) min_normal.
      intros AV AX D B22 B23 mn HV HVX HXV Hlo Hhi Hdouble Hmin.
      assert (e * AX <= (1 # 2) * AX) by nra.
      split; lra. }
    destruct Hrange as [HVlo HVhi].
    rewrite (to_float_normal V HVlo HVhi). eexists. split; [reflexivity|].
    apply (rel_error_trans X V _ e (1 # 9007199254740992) He0 ltac:(lra) HV
             (float_round_rel_error V)).
Qed.

Lemma close_to_weaken (v : pyfloat) (x tol tol' : Q) :
  tol <= tol' -> close_to v x tol -> close_to v x tol'.
Proof.
  intros Htol (q & Hv & Hq). exists q. split; [exact Hv|].
  eapply rel_error_weaken; [exact Htol | exact Hq].
Qed.

(** A product taken in [Decimal] with ten digits or more and stored in a
    [float] field is within one part in [10^9] of the exact product, when
    that is in range. *)
Lemma stored_product_close (p : Z) (x y : Q) :
  (10 <= p)%Z ->
  in_float_range (x * y) ->
  close_to (to_float (Decimal.mul p x y)) (x * y) (1 # 1000000000).
Proof.
  intros Hp Hrange.
  eapply close_to_weaken;
    [| apply (to_float_of_approx (x * y) (Decimal.mul p x y) (1 # 2000000000)
                ltac:(lra) ltac:(lra) Hrange (Decimal_round_rel_error p _ Hp))].
  lra.
Qed.

(** The quotient by such a product before it is stored. *)
Lemma Decimal_quotient_rel_error (p : Z) (m x y : Q) :
  (10 <= p)%Z ->
  ~ x * y == 0 ->
  Qabs (Rounding.round_sig 10 p (m / Decimal.mul p x y) - m / (x * y))
  <= (12 # 10000000000) * Qabs (m / (x * y)).
Proof.
  intros Hp Hxy.
  pose proof (Decimal_mul_nonzero p x y ltac:(lia) Hxy) as Hs.
  pose proof (rel_error_divisor m (x * y) (Decimal.mul p x y) (1 # 2000000000)
                ltac:(lra) ltac:(lra) Hxy Hs (Decimal_round_rel_error p (x * y) Hp))
    as Hdiv.
  assert (Hq : Qabs (m / Decimal.mul p x y - m / (x * y))
               <= (6 # 10000000000) * Qabs (m / (x * y))).
  { pose proof (Qabs_nonneg (m / (x * y))) as Hnn.
    pose proof (Qabs_nonneg (m / Decimal.mul p x y - m / (x * y))) as Hnn'.
    revert Hdiv Hnn Hnn'.
    generalize (Qabs (m / (x * y))) (Qabs (m / Decimal.mul p x y - m / (x * y))).
    intros T D Hdiv HT HD. lra. }
  eapply rel_error_weaken;
    [| apply (rel_error_trans _ _ _ (6 # 10000000000) (1 # 2000000000)
                ltac:(lra) ltac:(lra) Hq
                (Decimal_round_rel_error p (m / Decimal.mul p x y) Hp))].
  lra.
Qed.

(** A quotient by such a product, taken in [Decimal] and stored in a
    [float] field, is within two parts in [10^9] of the exact quotient,
    when that is in range. *)
Lemma stored_quotient_close (p : Z) (m x y : Q) :
  (10 <= p)%Z ->
  ~ x * y == 0 ->
  in_float_range (m / (x * y)) ->
  close_to (to_float (Rounding.round_sig 10 p (m / Decimal.mul p x y)))
    (m / (x * y)) (2 # 1000000000).
Proof.
  intros Hp Hxy Hrange.
  eapply close_to_weaken;
    [| apply (to_float_of_approx (m / (x * y)) _ (12 # 10000000000)
                ltac:(lra) ltac:(lra) Hrange
                (Decimal_quotient_rel_error p m x y Hp Hxy))].
  lra.
Qed.

End ErrorBounds.

(** ** Pair translation *)

Section PairFacts.
Import PyStr.
Local Open Scope string_scope.

(** A match of the suffix cannot straddle the end of [p]: no proper
    suffix of [":USDT"] is a prefix of it. *)
Lemma starts_with_suffixed p :
  starts_with ":USDT" (String.append p ":USDT") = true ->
  p = EmptyString \/ starts_with ":USDT" p = true.
Proof.
  destruct p as [|c1 [|c2 [|c3 [|c4 [|c5 p]]]]];
    cbn [String.append starts_with]; intros H; auto; exfalso;
    repeat match type of H with
           | context [Ascii.eqb ?a ?b] => destruct (Ascii.eqb a b) eqn:?
           end;
    simpl in H; try discriminate; congruence.
Qed.

Lemma replace_from_suffixed p :
  contains ":USDT" p = false ->
  replace_from ":USDT" EmptyString 0 (String.append p ":USDT") = p.
Proof.
  induction p as [|c p IH]; intros Hwf.
  - reflexivity.
  - cbn [contains] in Hwf. apply orb_false_elim in Hwf as [Hhead Htail].
    change (String.append (String c p) ":USDT")
      with (String c (String.append p ":USDT")).
    cbn [replace_from].
    destruct (starts_with ":USDT" (String c (String.append p ":USDT"))) eqn:Hs.
    + apply (starts_with_suffixed (String c p)) in Hs as [Hs|Hs]; congruence.
    + f_equal. apply IH, Htail.
Qed.

(** A string without a colon is well formed. *)
Lemma no_colon_well_formed p :
  (forall n, String.get n p <> Some ":"%char) -> well_formed_ext_pair p.
Proof.
  unfold well_formed_ext_pair.
  induction p as [|c p IH]; intros Hn; [reflexivity|].
  cbn [contains]. apply orb_false_intro.
  - cbn [starts_with]. destruct (Ascii.eqb_spec ":"%char c) as [<-|]; [|reflexivity].
    exfalso. apply (Hn 0%nat). reflexivity.
  - apply IH. intros n. apply (Hn (S n)).
Qed.

(** The suffix inside the pair is removed as well, so such a pair does not
    come back. *)
Example pair_round_trip_ill_formed :
  pair_to_ext_pair (ext_pair_to_pair "BTC:USDT-PERP") = "BTC-PERP".
Proof. reflexivity. Qed.

End PairFacts.

(** C4: for a well-formed external pair [p], translating to the internal
    form and back gives [p] again. *)
Theorem pair_round_trip (p : string) :
  well_formed_ext_pair p -> pair_to_ext_pair (ext_pair_to_pair p) = p.
Proof.
  intros Hwf. unfold pair_to_ext_pair, ext_pair_to_pair, PyStr.replace.
  apply replace_from_suffixed, Hwf.
Qed.

Lemma pair_round_trip_witness :
  well_formed_ext_pair "BTC-USDT"
  /\ pair_to_ext_pair (ext_pair_to_pair "BTC-USDT") = "BTC-USDT"%string.
Proof.
  split; [reflexivity | apply (pair_round_trip "BTC-USDT"); reflexivity].
Defined.

(** ** Candle windows *)

(** One turn of the loop. *)
Lemma ohlcv_windows_step interval current_ts end_ts :
  ohlcv_windows interval current_ts end_ts =
  if Z_lt_dec current_ts end_ts then
    (current_ts, Z.min (current_ts + bitmart_limit * Z.pos interval) end_ts)
      :: ohlcv_windows interval (current_ts + (bitmart_limit * Z.pos interval + 1)) end_ts
  else [].
Proof.
  rewrite (ohlcv_windows_equation_1 interval current_ts end_ts).
  destruct (Z_lt_dec current_ts end_ts);
    [rewrite ohlcv_windows_clause_1_equation_1|]; reflexivity.
Qed.

(** Every window starts inside the interval, ends inside it, and is no
    longer than [bitmart_limit] candles. *)
Lemma ohlcv_windows_bounds interval current_ts end_ts w :
  w ∈ ohlcv_windows interval current_ts end_ts ->
  current_ts <= fst w < end_ts
  /\ fst w <= snd w <= end_ts
  /\ snd w - fst w <= bitmart_limit * Z.pos interval.
Proof.
  funelim (ohlcv_windows interval current_ts end_ts); intros Hin.
  - apply elem_of_cons in Hin as [->|Hin].
    + unfold bitmart_limit. simpl. lia.
    + match goal with IH : forall _ : Z * Z, _ |- _ => specialize (IH _ Hin) end.
      unfold bitmart_limit in *. lia.
  - apply elem_of_nil in Hin. contradiction.
Qed.

Lemma ohlcv_windows_head interval current_ts end_ts :
  current_ts < end_ts ->
  head (ohlcv_windows interval current_ts end_ts)
  = Some (current_ts, Z.min (current_ts + bitmart_limit * Z.pos interval) end_ts).
Proof.
  intros Hlt. rewrite ohlcv_windows_step.
  destruct (Z_lt_dec current_ts end_ts); [reflexivity | contradiction].
Qed.

(** The next window starts one millisecond after the previous one ends. *)
Lemma ohlcv_windows_chain interval current_ts end_ts (i : nat) (w w' : Z * Z) :
  ohlcv_windows interval current_ts end_ts !! i = Some w ->
  ohlcv_windows interval current_ts end_ts !! S i = Some w' ->
  fst w' = snd w + 1.
Proof.
  revert i w w'.
  funelim (ohlcv_windows interval current_ts end_ts); intros i w w' Hi HSi.
  - destruct i as [|i]; simplify_eq/=.
    + rewrite ohlcv_windows_step in HSi.
      destruct (Z_lt_dec (current_ts + (bitmart_limit * Z.pos interval + 1)) end_ts)
        as [Hlt|]; simplify_eq/=.
      unfold bitmart_limit in *. lia.
    + eauto.
  - discriminate.
Qed.

(** Where the last window ends. *)
Lemma ohlcv_windows_last interval current_ts end_ts :
  current_ts < end_ts ->
  exists w, last (ohlcv_windows interval current_ts end_ts) = Some w
    /\ snd w = if (end_ts - current_ts) mod (bitmart_limit * Z.pos interval + 1) =? 0
               then end_ts - 1 else end_ts.
Proof.
  funelim (ohlcv_windows interval current_ts end_ts); intros Hlt; [|contradiction].
  set (step := bitmart_limit * Z.pos interval + 1) in *.
  assert (Hstep : 0 < step) by (unfold step, bitmart_limit; lia).
  destruct (Z_lt_dec (current_ts + step) end_ts) as [Hmore|Hdone].
  - match goal with IH : _ < _ -> _ |- _ => destruct (IH Hmore) as (w & Hw & Hsnd) end.
    exists w. split.
    + destruct (ohlcv_windows interval (current_ts + step) end_ts) eqn:E;
        [discriminate | exact Hw].
    + rewrite Hsnd.
      replace (end_ts - current_ts) with (end_ts - (current_ts + step) + 1 * step) by lia.
      rewrite Z.mod_add by lia. reflexivity.
  - rewrite (ohlcv_windows_step interval (current_ts + step) end_ts).
    destruct (Z_lt_dec (current_ts + step) end_ts); [contradiction|].
    eexists; split; [reflexivity|]. cbn [snd].
    destruct (Z.eq_dec (current_ts + step) end_ts) as [Hend|Hne].
    + replace (end_ts - current_ts) with (0 + 1 * step) by lia.
      rewrite Z.mod_add, Z.mod_0_l by lia. simpl. unfold step in *. lia.
    + rewrite Z.mod_small by lia.
      destruct (Z.eqb_spec (end_ts - current_ts) 0); unfold step in *; lia.
Qed.

(** C2: for a timeframe of the table, a limit that is not positive gives no
    window; a positive limit gives windows that start at
    [end_ts - limit * interval], each spanning at most [bitmart_limit]
    candles and staying within the interval, consecutive ones one
    millisecond apart, the last one ending at [end_ts], or one millisecond
    short of it when [limit * interval] is a multiple of
    [bitmart_limit * interval + 1]. *)
Theorem ohlcv_windows_tile (end_ts : Z) (timeframe : string)
    (interval : positive) (limit : Z) :
  dict_get ts_dict timeframe = Some interval ->
  (limit <= 0 -> get_last_ohlcv_windows end_ts timeframe limit = Py.Returned [])
  /\ (0 < limit ->
      exists ws,
        get_last_ohlcv_windows end_ts timeframe limit = Py.Returned ws
        /\ (exists b, head ws = Some (end_ts - limit * Z.pos interval, b))
        /\ (forall w, w ∈ ws ->
              end_ts - limit * Z.pos interval <= fst w <= snd w
              /\ snd w <= end_ts
              /\ snd w - fst w <= bitmart_limit * Z.pos interval)
        /\ (forall (i : nat) w w',
              ws !! i = Some w -> ws !! S i = Some w' -> fst w' = snd w + 1)
        /\ (exists w, last ws = Some w
              /\ snd w = if (limit * Z.pos interval)
                              mod (bitmart_limit * Z.pos interval + 1) =? 0
                         then end_ts - 1 else end_ts)).
Proof.
  intros Htf. unfold get_last_ohlcv_windows. rewrite Htf.
  set (start_ts := end_ts - limit * Z.pos interval). split.
  - intros Hlimit. rewrite ohlcv_windows_step.
    destruct (Z_lt_dec start_ts end_ts) as [Hlt|_]; [|reflexivity].
    unfold start_ts in Hlt. nia.
  - intros Hlimit.
    assert (Hlt : start_ts < end_ts) by (unfold start_ts; nia).
    eexists; split; [reflexivity|]. split; [|split; [|split]].
    + eexists. apply ohlcv_windows_head, Hlt.
    + intros w Hw. pose proof (ohlcv_windows_bounds _ _ _ _ Hw).
      unfold start_ts in *. lia.
    + intros i w w'. apply ohlcv_windows_chain.
    + destruct (ohlcv_windows_last interval start_ts end_ts Hlt) as (w & Hw & Hsnd).
      exists w. split; [exact Hw|]. rewrite Hsnd.
      replace (end_ts - start_ts) with (limit * Z.pos interval)
        by (unfold start_ts; lia).
      reflexivity.
Qed.

Lemma ohlcv_windows_tile_witness :
  exists ws,
    get_last_ohlcv_windows 1700000000000 "1h" 1000 = Py.Returned ws
    /\ (exists b, head ws = Some (1700000000000 - 1000 * 3600000, b))
    /\ (forall w, w ∈ ws ->
          1700000000000 - 1000 * 3600000 <= fst w <= snd w
          /\ snd w <= 1700000000000
          /\ snd w - fst w <= bitmart_limit * 3600000)
    /\ (forall (i : nat) w w',
          ws !! i = Some w -> ws !! S i = Some w' -> fst w' = snd w + 1)
    /\ (exists w, last ws = Some w
          /\ snd w = if (1000 * 3600000) mod (bitmart_limit * 3600000 + 1) =? 0
                     then 1700000000000 - 1 else 1700000000000).
Proof.
  apply (proj2 (ohlcv_windows_tile 1700000000000 "1h" 3600000 1000 eq_refl)). lia.
Defined.

(** With one-minute candles and a limit of 30000001 the 60000 windows end
    one millisecond before [end_ts]. *)
Lemma ohlcv_last_window_misses_now :
  ~ (exists ws w,
       get_last_ohlcv_windows 1700000000000 "1m" 30000001 = Py.Returned ws
       /\ last ws = Some w /\ snd w = 1700000000000).
Proof.
  intros (ws & w & Hws & Hlast & Hsnd).
  unfold get_last_ohlcv_windows in Hws.
  change (dict_get ts_dict "1m") with (Some 60000%positive) in Hws.
  injection Hws as <-.
  destruct (ohlcv_windows_last 60000 (1700000000000 - 30000001 * 60000)
              1700000000000 ltac:(lia)) as (w0 & Hw0 & Hs0).
  rewrite Hlast in Hw0. injection Hw0 as <-.
  rewrite Hsnd in Hs0. vm_compute in Hs0. discriminate.
Qed.

(** The windows of the spec's example: 1000 one-hour candles. *)
Example ohlcv_windows_1000h :
  get_last_ohlcv_windows 1700000000000 "1h" 1000
  = Py.Returned [(1696400000000, 1698200000000); (1698200000001, 1700000000000)].
Proof. reflexivity. Qed.

(** The same fetch, as the session sees it: the times are sent in whole
    seconds, where the millisecond between the two windows is lost. *)
Example ohlcv_requests_1000h :
  Py.calls (snd (Py.run (get_last_ohlcv (sample_adapter sample_session)
                           1700000000000 "BTC-USDT" "1h" 1000)))
  = [ Py.CallFetchOhlcv "BTC-USDT:USDT" "1h" "1696400000" "1698200000";
      Py.CallFetchOhlcv "BTC-USDT:USDT" "1h" "1698200000" "1700000000" ]%string.
Proof. reflexivity. Qed.

(** A timeframe outside the table is a [KeyError], before any request. *)
Example ohlcv_unknown_timeframe :
  Py.run (get_last_ohlcv (sample_adapter sample_session)
            1700000000000 "BTC-USDT" "3h" 1000)
  = (Py.Raised (Py.KeyError "3h"), Py.initial).
Proof. reflexivity. Qed.

(** ** The methods *)

Section BalanceFacts.
Import Py.
Local Open Scope string_scope.

Lemma filter_no_usdt (l : list BalanceEntry.t) :
  Forall (fun r => BalanceEntry.currency r <> "USDT") l ->
  filter (fun r => BalanceEntry.currency r = "USDT") l = [].
Proof.
  induction 1 as [|r l Hr _ IH]; [reflexivity|].
  rewrite filter_cons_False by exact Hr. exact IH.
Qed.

(** A number in range converts to a float within [2^-53] of it. *)
Lemma to_float_close (x : Q) :
  in_float_range x -> close_to (to_float x) x (1 # 9007199254740992).
Proof.
  intros Hx.
  eapply close_to_weaken;
    [| apply (to_float_of_approx x x 0 ltac:(lra) ltac:(lra) Hx)].
  - lra.
  - assert (E : (Qabs (x - x) == 0)%Q)
      by (apply Qabs_eq_0; unfold Qminus; apply Qplus_opp_r).
    rewrite E. lra.
Qed.

(** C5: the balance is read off the first USDT entry of the payload, each
    amount converted to a float: [total], [free] and [used] are the
    binary64 numbers nearest to the entry's [equity], [available_balance]
    and [position_deposit], within [2^-53] of them when they are in
    range; a payload without a USDT entry makes [get_balance] fail with
    [IndexError]. *)
Theorem get_balance_mapping (self : PerpBitmart) (payload : list BalanceEntry.t)
    (w : world) :
  Ccxt.fetch_balance (_session self) = Returned payload ->
  (forall before entry after,
      payload = (before ++ entry :: after)%list ->
      Forall (fun r => BalanceEntry.currency r <> "USDT") before ->
      BalanceEntry.currency entry = "USDT" ->
      exists b,
        fst (get_balance self w) = Returned b
        /\ UsdtBalance.total b = to_float (BalanceEntry.equity entry)
        /\ UsdtBalance.free b = to_float (BalanceEntry.available_balance entry)
        /\ UsdtBalance.used b = to_float (BalanceEntry.position_deposit entry)
        /\ (in_float_range (BalanceEntry.equity entry) ->
            close_to (UsdtBalance.total b) (BalanceEntry.equity entry)
              (1 # 9007199254740992))
        /\ (in_float_range (BalanceEntry.available_balance entry) ->
            close_to (UsdtBalance.free b) (BalanceEntry.available_balance entry)
              (1 # 9007199254740992))
        /\ (in_float_range (BalanceEntry.position_deposit entry) ->
            close_to (UsdtBalance.used b) (BalanceEntry.position_deposit entry)
              (1 # 9007199254740992)))
  /\ (Forall (fun r => BalanceEntry.currency r <> "USDT") payload ->
      fst (get_balance self w) = Raised IndexError).
Proof.
  intros Hresp. unfold get_balance. unfold_monad. rewrite Hresp. cbn [fst snd].
  split.
  - intros before entry after -> Hbefore Hentry.
    rewrite filter_app, filter_cons_True by exact Hentry.
    rewrite (filter_no_usdt before Hbefore). cbn [app fst].
    eexists. split; [reflexivity|].
    cbn [UsdtBalance.total UsdtBalance.free UsdtBalance.used].
    repeat split; apply to_float_close.
  - intros Hnone. rewrite (filter_no_usdt payload Hnone). reflexivity.
Qed.

Lemma get_balance_mapping_witness :
  exists b,
    fst (get_balance (sample_adapter (with_balance sample_session
           [ {| BalanceEntry.currency := "USDT"; BalanceEntry.equity := 1001 # 10;
                BalanceEntry.available_balance := 3 # 4;
                BalanceEntry.position_deposit := 0 # 1 |} ])) initial) = Returned b
    /\ UsdtBalance.total b = Finite (3521955646092083 # 35184372088832)
    /\ UsdtBalance.free b = Finite (3 # 4)
    /\ UsdtBalance.used b = Finite 0.
Proof.
  destruct (proj1 (get_balance_mapping
                     (sample_adapter (with_balance sample_session
                        [ {| BalanceEntry.currency := "USDT";
                             BalanceEntry.equity := 1001 # 10;
                             BalanceEntry.available_balance := 3 # 4;
                             BalanceEntry.position_deposit := 0 # 1 |} ]))
                     _ initial eq_refl)
              [] _ [] eq_refl (List.Forall_nil _) eq_refl)
    as (b & Hb & Htotal & Hfree & Hused & _).
  exists b. split; [exact Hb|]. rewrite Htotal, Hfree, Hused.
  repeat split; vm_compute; reflexivity.
Defined.

(** An equity of [2^53 + 1] comes back as [2^53]. *)
Lemma get_balance_rounds_to_float :
  exists b,
    fst (run (get_balance (sample_adapter (with_balance sample_session odd_balance))))
    = Returned b
    /\ UsdtBalance.total b = Finite (9007199254740992 # 1)
    /\ UsdtBalance.total b <> Finite (9007199254740993 # 1)
    /\ forall q, UsdtBalance.total b = Finite q -> ~ (q == 9007199254740993 # 1)%Q.
Proof.
  eexists. split; [vm_compute; reflexivity|]. cbn [UsdtBalance.total].
  split; [reflexivity|]. split; [discriminate|].
  intros q [= <-]. vm_compute. discriminate.
Qed.

(** A payload with two USDT entries: the first one is taken. *)
Example get_balance_first_usdt :
  fst (run (get_balance (sample_adapter (with_balance sample_session
         (sample_balance
          ++ [ {| BalanceEntry.currency := "USDT"; BalanceEntry.equity := 7 # 1;
                  BalanceEntry.available_balance := 7 # 1;
                  BalanceEntry.position_deposit := 0 # 1 |} ])%list))))
  = Returned {| UsdtBalance.total := Finite (1000 # 1);
                UsdtBalance.free := Finite (750 # 1);
                UsdtBalance.used := Finite (250 # 1) |}.
Proof. vm_compute. reflexivity. Qed.

Example get_balance_no_usdt :
  run (get_balance (sample_adapter (with_balance sample_session
         [ {| BalanceEntry.currency := "BTC"; BalanceEntry.equity := 1 # 2;
              BalanceEntry.available_balance := 1 # 2;
              BalanceEntry.position_deposit := 0 # 1 |} ])))
  = (Raised IndexError,
     {| calls := [CallFetchBalance]; printed := []; decimal_prec := 10 |}).
Proof. reflexivity. Qed.

End BalanceFacts.

Section MarginFacts.
Import Py.
Local Open Scope string_scope.

(** C6: a margin mode other than "cross" and "isolated" is refused with the
    validation error and the log of session calls is left as it was; with
    one of the two modes, an error of [set_leverage] reaches the caller as
    it is. *)
Theorem set_margin_mode_validation (self : PerpBitmart) (pair margin_mode : string)
    (leverage : Z) (w : world) :
  (margin_mode <> "cross" -> margin_mode <> "isolated" ->
   set_margin_mode_and_leverage self pair margin_mode leverage w
   = (Raised (Exception "Margin mode must be either 'cross' or 'isolated'"), w))
  /\ (margin_mode = "cross" \/ margin_mode = "isolated" ->
      forall e,
        Ccxt.set_leverage (_session self) leverage (ext_pair_to_pair pair)
          margin_mode margin_mode = Raised e ->
        fst (set_margin_mode_and_leverage self pair margin_mode leverage w)
        = Raised e).
Proof.
  unfold set_margin_mode_and_leverage. split.
  - intros Hc Hi. rewrite bool_decide_eq_false_2; [reflexivity|].
    rewrite !elem_of_cons, elem_of_nil. tauto.
  - intros Hmode e He. rewrite bool_decide_eq_true_2.
    + unfold_monad. rewrite He. destruct (is_exception e); reflexivity.
    + rewrite !elem_of_cons. tauto.
Qed.

Lemma set_margin_mode_validation_witness :
  set_margin_mode_and_leverage (sample_adapter sample_session) "BTC-USDT" "bogus" 5
    initial
  = (Raised (Exception "Margin mode must be either 'cross' or 'isolated'"), initial)
  /\ fst (set_margin_mode_and_leverage (sample_adapter offline_session)
            "BTC-USDT" "cross" 5 initial)
     = Raised (SessionError "NetworkError").
Proof.
  split.
  - apply (proj1 (set_margin_mode_validation (sample_adapter sample_session)
                    "BTC-USDT" "bogus" 5 initial)); discriminate.
  - apply (proj2 (set_margin_mode_validation (sample_adapter offline_session)
                    "BTC-USDT" "cross" 5 initial)); [left|]; reflexivity.
Defined.

End MarginFacts.

Section CancelFacts.
Import Py.
Local Open Scope string_scope.

(** C7: when the session's cancellation call returns, [cancel_orders] and
    [cancel_trigger_orders] return an [Info] that reports success; when it
    raises an exception that derives from [Exception], they return the
    generic failure record and nothing is raised; an exception that does
    not derive from [Exception] reaches the caller. *)
Theorem cancel_swallows_exceptions (self : PerpBitmart) (pair : string)
    (ids : list string) (stop : bool) (w : world) :
  let cancel := if stop then cancel_trigger_orders else cancel_orders in
  let underlying :=
    Ccxt.cancel_orders (_session self) ids (ext_pair_to_pair pair) stop in
  (forall resp,
      underlying = Returned resp ->
      exists info,
        fst (cancel self pair ids w) = Returned info /\ Info.success info = true)
  /\ (forall e,
        underlying = Raised e -> is_exception e = true ->
        fst (cancel self pair ids w)
        = Returned {| Info.success := false;
                      Info.message := "Error or no orders to cancel" |})
  /\ (forall e,
        underlying = Raised e -> is_exception e = false ->
        fst (cancel self pair ids w) = Raised e).
Proof.
  cbn zeta. destruct stop; unfold cancel_orders, cancel_trigger_orders;
    unfold_monad; (split; [|split]).
  all: try (intros resp ->; eexists; split; reflexivity).
  all: intros e -> He; cbn [fst snd]; rewrite He; reflexivity.
Qed.

Lemma cancel_swallows_exceptions_witness :
  fst (cancel_orders (sample_adapter offline_session) "BTC-USDT" ["42"] initial)
  = Returned {| Info.success := false;
                Info.message := "Error or no orders to cancel" |}.
Proof.
  apply (proj1 (proj2 (cancel_swallows_exceptions (sample_adapter offline_session)
                         "BTC-USDT" ["42"] false initial))
           (SessionError "NetworkError")); reflexivity.
Defined.

(** A cancelled call: [CancelledError] passes the [except] clause. *)
Lemma cancel_orders_cancelled :
  fst (run (cancel_orders (sample_adapter cancelled_session) "BTC-USDT" ["42"]))
  = Raised CancelledError
  /\ fst (run (cancel_trigger_orders (sample_adapter cancelled_session)
                 "BTC-USDT" ["42"]))
     = Raised CancelledError.
Proof. split; reflexivity. Qed.

Example cancel_orders_offline :
  run (cancel_orders (sample_adapter offline_session) "BTC-USDT" ["42"])
  = (Returned {| Info.success := false;
                 Info.message := "Error or no orders to cancel" |},
     {| calls := [CallCancelOrders ["42"] "BTC-USDT:USDT" false]; printed := [];
        decimal_prec := 10 |}).
Proof. reflexivity. Qed.

Example cancel_trigger_orders_online :
  fst (run (cancel_trigger_orders (sample_adapter sample_session) "BTC-USDT"
              ["42"; "43"]))
  = Returned {| Info.success := true; Info.message := "2 Trigger Orders cancelled" |}.
Proof. reflexivity. Qed.

End CancelFacts.

Section OrderFacts.
Import Py.
Local Open Scope string_scope.

(** What [get_pair_info] and the subscript give when the market table is
    loaded and has the pair. *)
Lemma get_contractSize_loaded (self : PerpBitmart) (pair : string)
    (m : gmap string MarketInfo) (info : MarketInfo) (w : world) :
  market self = Some m ->
  m !! ext_pair_to_pair pair = Some info ->
  (info ← get_pair_info self pair; get_contractSize info) w
  = (Returned (contractSize info), w).
Proof.
  intros Hm Hinfo. unfold get_pair_info, get_contractSize. unfold_monad.
  rewrite Hm, Hinfo. reflexivity.
Qed.

(** Whether a lookup raises, and what, does not depend on what was logged
    before nor on the decimal context. *)
Lemma get_order_by_id_raised (self : PerpBitmart) (order_id pair : string)
    (e : exn) (w w' : world) :
  fst (get_order_by_id self order_id pair w) = Raised e ->
  fst (get_order_by_id self order_id pair w') = Raised e.
Proof.
  unfold get_order_by_id, get_pair_info, get_contractSize. unfold_monad.
  destruct (market self) as [m|]; [|exact (fun H => H)].
  destruct (m !! ext_pair_to_pair pair) as [info|]; [|exact (fun H => H)].
  cbn [fst snd].
  destruct (Ccxt.fetch_order (_session self) order_id (ext_pair_to_pair pair));
    [discriminate | exact (fun H => H)].
Qed.

(** A lookup prints nothing. *)
Lemma get_order_by_id_printed (self : PerpBitmart) (order_id pair : string)
    (w : world) :
  printed (snd (get_order_by_id self order_id pair w)) = printed w.
Proof.
  unfold get_order_by_id, get_pair_info, get_contractSize. unfold_monad.
  destruct (market self) as [m|]; [|reflexivity].
  destruct (m !! ext_pair_to_pair pair) as [info|]; [|reflexivity].
  cbn [fst snd].
  destruct (Ccxt.fetch_order (_session self) order_id (ext_pair_to_pair pair));
    reflexivity.
Qed.

(** C3: when the creation or the follow-up lookup fails with [e], an
    exception that derives from [Exception], [place_order] raises [e] if
    [error] is true; if [error] is false it prints [e] and returns [None].
    When [e] does not derive from [Exception], as a cancellation of the
    awaited call, [place_order] raises [e] in both modes and prints
    nothing. *)
Theorem place_order_dual_mode (self : PerpBitmart) (pair side : string)
    (price size : Q) (type : string) (reduce : bool) (margin_mode : string)
    (leverage : Z) (e : exn) (w : world) :
  underlying_failure self (decimal_prec w) pair side price size type reduce
    margin_mode leverage e ->
  let strict :=
    place_order self pair side price size type reduce margin_mode leverage true w in
  let lenient :=
    place_order self pair side price size type reduce margin_mode leverage false w in
  fst strict = Raised e
  /\ (is_exception e = true ->
      fst lenient = Returned None /\ printed (snd lenient) = (printed w ++ [e])%list)
  /\ (is_exception e = false ->
      fst lenient = Raised e /\ printed (snd lenient) = printed w).
Proof.
  intros Hfail. cbn zeta. unfold place_order, get_pair_info, get_contractSize.
  destruct Hfail as [m info contracts amount Hm Hinfo Hdiv Hamount Hcreate
                    |m info contracts amount resp Hm Hinfo Hdiv Hamount Hcreate Hlookup];
    unfold_monad; rewrite Hm, Hinfo; cbn [fst snd]; rewrite Hdiv; cbn [fst snd];
    rewrite Hamount; cbn [fst snd calls printed decimal_prec]; rewrite Hcreate.
  - cbn [fst snd calls printed decimal_prec].
    destruct (is_exception e); cbn; (split; [reflexivity|]); split;
      intros; try discriminate; auto.
  - cbn [fst snd calls printed decimal_prec].
    match goal with
    | |- context [get_order_by_id self ?i ?p ?w'] =>
        pose proof (get_order_by_id_raised self i p e initial w' Hlookup) as Hout;
        pose proof (get_order_by_id_printed self i p w') as Hpr;
        destruct (get_order_by_id self i p w') as [o w'']
    end.
    cbn [fst snd printed] in Hout, Hpr. subst o.
    cbn [fst snd printed calls].
    destruct (is_exception e); cbn [fst snd printed calls]; rewrite ?Hpr;
      (split; [reflexivity|]); split; intros; try discriminate; auto.
Qed.

Lemma place_order_dual_mode_creation_witness :
  fst (place_order (sample_adapter offline_session) "BTC-USDT" "buy"
         (30000 # 1) (5 # 1000) "limit" false "cross" 1 true initial)
  = Raised (SessionError "NetworkError")
  /\ fst (place_order (sample_adapter offline_session) "BTC-USDT" "buy"
            (30000 # 1) (5 # 1000) "limit" false "cross" 1 false initial)
     = Returned None
  /\ printed (snd (place_order (sample_adapter offline_session) "BTC-USDT" "buy"
                     (30000 # 1) (5 # 1000) "limit" false "cross" 1 false initial))
     = [SessionError "NetworkError"].
Proof.
  destruct (place_order_dual_mode (sample_adapter offline_session) "BTC-USDT" "buy"
              (30000 # 1) (5 # 1000) "limit" false "cross" 1
              (SessionError "NetworkError") initial) as (Hs & Hl & _).
  - apply (creation_fails _ _ _ _ _ _ _ _ _ _ _ sample_market
             {| contractSize := 1 # 1000 |} (5 # 1) "5"); reflexivity.
  - split; [exact Hs|]. exact (Hl eq_refl).
Defined.

(** The awaited creation is cancelled: with [error=False] too,
    [place_order] raises, and nothing is printed. *)
Lemma place_order_cancelled :
  run (place_order (sample_adapter cancelled_session) "BTC-USDT" "buy"
         (30000 # 1) (5 # 1000) "limit" false "cross" 1 false)
  = (Raised CancelledError,
     {| calls := [ CallAmountToPrecision "BTC-USDT:USDT" (5 # 1);
                   CallCreateOrder "BTC-USDT:USDT" "limit" "buy" "5" (30000 # 1)
                     false "cross" 1 ];
        printed := []; decimal_prec := 10 |})
  /\ underlying_failure (sample_adapter cancelled_session) (decimal_prec initial)
       "BTC-USDT" "buy" (30000 # 1) (5 # 1000) "limit" false "cross" 1
       CancelledError.
Proof.
  split; [vm_compute; reflexivity|].
  apply (creation_fails _ _ _ _ _ _ _ _ _ _ _ sample_market
           {| contractSize := 1 # 1000 |} (5 # 1) "5"); reflexivity.
Qed.

(** Before [load_markets] the lookup of the pair fails, and that failure
    too follows the [error] flag. *)
Example place_order_before_load_markets :
  fst (run (place_order (new (Some "secret") sample_session) "BTC-USDT" "buy"
              (30000 # 1) (5 # 1000) "limit" false "cross" 1 true))
  = Raised (AttributeError "market")
  /\ fst (run (place_order (new (Some "secret") sample_session) "BTC-USDT" "buy"
                 (30000 # 1) (5 # 1000) "limit" false "cross" 1 false))
     = Returned None.
Proof. split; reflexivity. Qed.

Example place_order_after_load_markets :
  exists self o,
    fst (run (load_markets (new (Some "secret") sample_session))) = Returned self
    /\ fst (run (place_order self "BTC-USDT" "buy" (30000 # 1) (5 # 1000) "limit"
                   false "cross" 1 true)) = Returned (Some o)
    /\ Order.size o = to_float (5 # 1000)
    /\ Order.pair o = "BTC-USDT".
Proof.
  eexists. eexists. split; [reflexivity|]. split; [vm_compute; reflexivity|].
  split; vm_compute; reflexivity.
Qed.

Example place_order_lookup_failure_strict :
  fst (run (place_order (sample_adapter lookup_less_session) "BTC-USDT" "buy"
              (30000 # 1) (5 # 1000) "limit" false "cross" 1 true))
  = Raised (SessionError "OrderNotFound").
Proof. reflexivity. Qed.

Example place_order_lookup_failure :
  run (place_order (sample_adapter lookup_less_session) "BTC-USDT" "buy"
         (30000 # 1) (5 # 1000) "limit" false "cross" 1 false)
  = (Returned None,
     {| calls := [ CallAmountToPrecision "BTC-USDT:USDT" (5 # 1);
                   CallCreateOrder "BTC-USDT:USDT" "limit" "buy" "5" (30000 # 1)
                     false "cross" 1;
                   CallFetchOrder "42" "BTC-USDT:USDT" ];
        printed := [SessionError "OrderNotFound"]; decimal_prec := 10 |}).
Proof. reflexivity. Qed.

End OrderFacts.

(** ** Positions *)

Section PositionFacts.
Import Py.
Local Open Scope Q_scope.

Lemma round_sig_zero (beta prec : Z) (x : Q) :
  x == 0 -> Rounding.round_sig beta prec x = 0.
Proof.
  intros Hx. unfold Rounding.round_sig.
  assert (Hn : Qnum x = 0%Z).
  { unfold Qeq in Hx. simpl in Hx. lia. }
  rewrite Hn. reflexivity.
Qed.

(** What the loop body gave when it returned; the state is left as it
    was. *)
Lemma normalize_position_returned (raw : RawPosition.t) (w w' : world)
    (p : Position.t) :
  normalize_position raw w = (Returned p, w') ->
  w' = w /\ normalizes (decimal_prec w) raw p.
Proof.
  unfold normalize_position, Decimal.div. unfold_monad. cbn [fst snd].
  destruct (Qeq_bool (Decimal.mul (decimal_prec w) (RawPosition.contracts raw)
                        (RawPosition.contractSize raw)) 0) eqn:Hz.
  - destruct (Qeq_bool (RawPosition.markPrice raw) 0); discriminate.
  - intros [= <- <-]. split; [reflexivity|]. unfold normalizes. cbn.
    split; [|auto]. intros Hzero. apply Qeq_bool_neq in Hz. apply Hz.
    unfold Decimal.mul. rewrite (round_sig_zero _ _ _ Hzero). reflexivity.
Qed.

Lemma normalize_position_returns (raw : RawPosition.t) (w : world) :
  (1 <= decimal_prec w)%Z ->
  ~ RawPosition.contracts raw * RawPosition.contractSize raw == 0 ->
  exists p, normalize_position raw w = (Returned p, w)
            /\ normalizes (decimal_prec w) raw p.
Proof.
  intros Hprec Hnz.
  destruct (normalize_position raw w) as [[p|e] w'] eqn:Hrun.
  - destruct (normalize_position_returned raw w w' p Hrun) as [-> Hnorm].
    exists p. split; [reflexivity | exact Hnorm].
  - exfalso. revert Hrun. unfold normalize_position, Decimal.div. unfold_monad.
    cbn [fst snd].
    destruct (Qeq_bool (Decimal.mul (decimal_prec w) (RawPosition.contracts raw)
                          (RawPosition.contractSize raw)) 0) eqn:Hz.
    + apply Qeq_bool_iff in Hz. destruct (Decimal_mul_nonzero _ _ _ Hprec Hnz Hz).
    + discriminate.
Qed.

Lemma normalize_position_raises (raw : RawPosition.t) (w : world) :
  RawPosition.contracts raw * RawPosition.contractSize raw == 0 ->
  normalize_position raw w
  = (Raised (if Qeq_bool (RawPosition.markPrice raw) 0
             then InvalidOperation else DivisionByZero), w).
Proof.
  intros Hz. unfold normalize_position, Decimal.div, Decimal.mul. unfold_monad.
  rewrite (round_sig_zero _ _ _ Hz). cbn.
  destruct (Qeq_bool (RawPosition.markPrice raw) 0); reflexivity.
Qed.

(** The loop over the response: it returns exactly when no position has a
    zero size, and then position by position. *)
Lemma for_each_normalize_returned (resp : list RawPosition.t) (w : world) :
  forall positions w',
    for_each normalize_position resp w = (Returned positions, w') ->
    Forall2 (normalizes (decimal_prec w)) resp positions.
Proof.
  induction resp as [|raw resp IH]; intros positions w' Hrun.
  - cbn in Hrun. unfold_monad. injection Hrun as <- _. constructor.
  - cbn [for_each] in Hrun. unfold bind in Hrun.
    destruct (normalize_position raw w) as [[p|e] w1] eqn:Hp; [|discriminate].
    destruct (normalize_position_returned raw w w1 p Hp) as [-> Hnorm].
    destruct (for_each normalize_position resp w) as [[ps|e] w''] eqn:Hrest;
      [|discriminate].
    unfold ret in Hrun. injection Hrun as <- _.
    constructor; [exact Hnorm | eapply IH; reflexivity].
Qed.

Lemma for_each_normalize_total (resp : list RawPosition.t) (w : world) :
  (1 <= decimal_prec w)%Z ->
  Forall (fun raw => ~ RawPosition.contracts raw * RawPosition.contractSize raw == 0)
         resp ->
  exists positions, for_each normalize_position resp w = (Returned positions, w).
Proof.
  intros Hprec. induction 1 as [|raw resp Hnz _ [ps IH]].
  - eexists. reflexivity.
  - destruct (normalize_position_returns raw w Hprec Hnz) as (p & Hp & _).
    exists (p :: ps). cbn [for_each]. unfold bind. rewrite Hp, IH. reflexivity.
Qed.

Lemma for_each_normalize_raises (before after : list RawPosition.t)
    (raw : RawPosition.t) (w : world) :
  (1 <= decimal_prec w)%Z ->
  Forall (fun r => ~ RawPosition.contracts r * RawPosition.contractSize r == 0)
         before ->
  RawPosition.contracts raw * RawPosition.contractSize raw == 0 ->
  for_each normalize_position (before ++ raw :: after)%list w
  = (Raised (if Qeq_bool (RawPosition.markPrice raw) 0
             then InvalidOperation else DivisionByZero), w).
Proof.
  intros Hprec Hbefore Hz. induction Hbefore as [|r before Hnz _ IH].
  - cbn [app for_each]. unfold bind.
    rewrite (normalize_position_raises raw w Hz). reflexivity.
  - destruct (normalize_position_returns r w Hprec Hnz) as (p & Hp & _).
    change ((r :: before) ++ raw :: after)%list
      with (r :: (before ++ raw :: after))%list.
    cbn [for_each]. unfold bind at 1. rewrite Hp.
    unfold bind. rewrite IH. reflexivity.
Qed.

(** [get_open_positions] is the loop run on what [fetch_positions] gave. *)
Lemma get_open_positions_fetched (self : PerpBitmart) (pairs : list string)
    (resp : list RawPosition.t) (w : world) :
  Ccxt.fetch_positions (_session self) (map ext_pair_to_pair pairs) = Returned resp ->
  get_open_positions self pairs w
  = for_each normalize_position resp
      {| calls := (calls w ++ [CallFetchPositions (map ext_pair_to_pair pairs)])%list;
         printed := printed w; decimal_prec := decimal_prec w |}.
Proof.
  intros Hresp. unfold get_open_positions. unfold_monad. rewrite Hresp. reflexivity.
Qed.

(** The positions returned, one by one. *)
Lemma get_open_positions_returned (self : PerpBitmart) (pairs : list string)
    (resp : list RawPosition.t) (w : world) (positions : list Position.t) :
  Ccxt.fetch_positions (_session self) (map ext_pair_to_pair pairs) = Returned resp ->
  fst (get_open_positions self pairs w) = Returned positions ->
  Forall2 (normalizes (decimal_prec w)) resp positions.
Proof.
  intros Hresp Hrun. rewrite (get_open_positions_fetched self pairs resp w Hresp) in Hrun.
  destruct (for_each normalize_position resp _) as [o w'] eqn:Hloop.
  cbn [fst] in Hrun. subst o.
  exact (for_each_normalize_returned _ _ _ _ Hloop).
Qed.

(** On a tie [round_half_even] gives the even neighbour. *)
Lemma round_half_even_tie (a b : Z) :
  (0 < b)%Z ->
  (2 * Z.abs (Rounding.round_half_even a b * b - a) = b)%Z ->
  Z.even (Rounding.round_half_even a b) = true.
Proof.
  intros Hb. unfold Rounding.round_half_even.
  assert (Hdm : (a = b * (a / b) + a mod b)%Z) by (apply Z.div_mod; lia).
  assert (Hm : (0 <= a mod b < b)%Z) by (apply Z.mod_pos_bound; lia).
  destruct (Z.compare_spec (2 * (a mod b)) b) as [He|Hl|Hg].
  - destruct (Z.even (a / b)) eqn:Heven; intros _; [exact Heven|].
    rewrite Z.add_1_r, Z.even_succ, <- Z.negb_even, Heven. reflexivity.
  - intros H. exfalso. nia.
  - intros H. exfalso. nia.
Qed.

(** [round(x, 2)] is the float of [k / 100], for [k] the integer nearest
    to [100 * x]. *)
Lemma py_round_2 (x : Q) :
  py_round x 2
  = to_float (Rounding.round_half_even (Qnum x * 100) (Z.pos (Qden x)) # 100).
Proof. reflexivity. Qed.

Lemma round_half_even_nearest (x : Q) :
  nearest_even (100 * x) (Rounding.round_half_even (Qnum x * 100) (Z.pos (Qden x))).
Proof.
  destruct x as [n d]. cbn [Qnum Qden].
  pose proof (round_half_even_spec (n * 100) (Z.pos d) ltac:(lia)) as Hspec.
  pose proof (round_half_even_tie (n * 100) (Z.pos d) ltac:(lia)) as Htie.
  revert Hspec Htie.
  generalize (Rounding.round_half_even (n * 100) (Z.pos d)). intros k Hspec Htie.
  unfold nearest_even. split.
  - unfold Qle, Qminus, Qplus, Qopp, Qmult, Qabs, inject_Z. cbn [Qnum Qden].
    rewrite ?Pos2Z.inj_mul. lia.
  - intros Heq. apply Htie. revert Heq.
    unfold Qeq, Qminus, Qplus, Qopp, Qmult, Qabs, inject_Z. cbn [Qnum Qden].
    rewrite ?Pos2Z.inj_mul. lia.
Qed.

End PositionFacts.

Section PositionResults.
Import Py.
Local Open Scope Q_scope.

(** C1: in a decimal context of ten digits or more, each position
    returned has a [size] within one part in [10^9] of
    [contracts * contractSize] when that product is in the range of a
    binary64, and a [current_price] within two parts in [10^9] of
    [markPrice / (contracts * contractSize)] when that quotient is in the
    range; the call returns whenever no position of the response has a
    zero size. *)
Theorem get_open_positions_size_consistency (self : PerpBitmart)
    (pairs : list string) (resp : list RawPosition.t) (w : world) :
  Ccxt.fetch_positions (_session self) (map ext_pair_to_pair pairs) = Returned resp ->
  (10 <= decimal_prec w)%Z ->
  (forall positions,
      fst (get_open_positions self pairs w) = Returned positions ->
      Forall2 (fun raw p =>
                 let c := RawPosition.contracts raw in
                 let s := RawPosition.contractSize raw in
                 let m := RawPosition.markPrice raw in
                 (in_float_range (c * s) ->
                  close_to (Position.size p) (c * s) (1 # 1000000000))
                 /\ (in_float_range (m / (c * s)) ->
                     close_to (Position.current_price p) (m / (c * s))
                       (2 # 1000000000)))
              resp positions)
  /\ (Forall (fun raw =>
                ~ RawPosition.contracts raw * RawPosition.contractSize raw == 0) resp ->
      exists positions,
        fst (get_open_positions self pairs w) = Returned positions).
Proof.
  intros Hresp Hprec. split.
  - intros positions Hrun.
    pose proof (get_open_positions_returned self pairs resp w positions Hresp Hrun)
      as Hloop.
    eapply Forall2_impl; [exact Hloop|].
    intros raw p (Hnz & Hsize & Hprice & _). cbn zeta. rewrite Hsize, Hprice. split.
    + intros Hrange. apply stored_product_close; assumption.
    + intros Hrange. apply stored_quotient_close; assumption.
  - intros Hnz. rewrite (get_open_positions_fetched self pairs resp w Hresp).
    match goal with
    | |- context [for_each normalize_position resp ?w0] =>
        destruct (for_each_normalize_total resp w0 ltac:(cbn; lia) Hnz) as [ps Hps]
    end.
    exists ps. rewrite Hps. reflexivity.
Qed.

Lemma get_open_positions_size_consistency_witness :
  exists p,
    fst (get_open_positions (sample_adapter sample_session) ["BTC-USDT"%string]
           other_thread) = Returned [p]
    /\ close_to (Position.size p) (5 # 1000) (1 # 1000000000)
    /\ close_to (Position.current_price p) (15012345000 # 500000) (2 # 1000000000).
Proof.
  destruct (get_open_positions_size_consistency (sample_adapter sample_session)
              ["BTC-USDT"%string] [sample_position] other_thread eq_refl
              ltac:(vm_compute; discriminate))
    as [Hbounds Hreturns].
  destruct Hreturns as [positions Hrun].
  - repeat constructor. vm_compute. discriminate.
  - pose proof (Hbounds positions Hrun) as Hall.
    inversion Hall as [|raw p resp' ps [Hsize Hprice] Hrest]; subst.
    inversion Hrest; subst. exists p. split; [exact Hrun|]. split.
    + apply Hsize. right. split; vm_compute; discriminate.
    + apply Hprice. right. split; vm_compute; discriminate.
Defined.

(** 12345678901 contracts of size 1 in the ten-digit context: the size
    comes back as 12345678900, which is not within [2^-52] of the product:
    the tolerance is the one of the decimal context, not the one of
    binary64. *)
Lemma get_open_positions_loses_digits :
  exists p,
    fst (run (get_open_positions
                (sample_adapter (with_positions sample_session [bulk_position]))
                ["PEPE-USDT"%string])) = Returned [p]
    /\ Position.size p = Finite (12345678900 # 1)
    /\ ~ close_to (Position.size p)
           (RawPosition.contracts bulk_position * RawPosition.contractSize bulk_position)
           (1 # 4503599627370496).
Proof.
  eexists. split; [vm_compute; reflexivity|]. cbn [Position.size].
  split; [reflexivity|].
  intros (q & [= <-] & Hclose). revert Hclose. vm_compute. intros H. apply H.
  reflexivity.
Qed.

(** Contracts and contract size of [2^700]: the size overflows to
    infinity and the price underflows to zero. *)
Example get_open_positions_overflow :
  exists p,
    fst (run (get_open_positions
                (sample_adapter (with_positions sample_session [huge_position]))
                ["BTC-USDT"%string])) = Returned [p]
    /\ Position.size p = Infinity false
    /\ Position.current_price p = Finite 0.
Proof. eexists. split; [vm_compute; reflexivity|]. split; reflexivity. Qed.

(** The sample position: 5 contracts of 0.001 and a mark value of
    150.12345 give a size of 0.005 and a price of 30024.69. *)
Example get_open_positions_sample :
  exists p,
    fst (run (get_open_positions (sample_adapter sample_session) ["BTC-USDT"%string]))
    = Returned [p]
    /\ Position.size p = to_float (5 # 1000)
    /\ Position.current_price p = to_float (3002469 # 100)
    /\ Position.usd_size p = to_float (15012 # 100)
    /\ Position.pair p = "BTC-USDT"%string
    /\ Position.liquidation_price p == 20000 # 1
    /\ Position.stop_loss_price p == 0
    /\ Position.hedge_mode p = false.
Proof. eexists. split; [vm_compute; reflexivity|]. vm_compute. intuition congruence. Qed.

(** [usd_size] as a function of the response alone. *)
Lemma usd_size_of_normalized (prec : Z) (resp : list RawPosition.t)
    (positions : list Position.t) :
  Forall2 (normalizes prec) resp positions ->
  map Position.usd_size positions
  = map (fun m => py_round m 2) (map RawPosition.markPrice resp).
Proof.
  induction 1 as [|raw p resp positions (_ & _ & _ & Husd) _ IH]; [reflexivity|].
  cbn [map]. rewrite Husd, IH. reflexivity.
Qed.

(** C10: [usd_size] of each position returned is [markPrice] rounded to two
    decimal places: it is the float nearest to [k / 100], where [k] is the
    integer nearest to [100 * markPrice], the even one on a tie, hence
    within [2^-53] of [k / 100] when that is in range.  It does not depend
    on the contracts nor on the contract size: two responses with the same
    mark prices give the same [usd_size]s. *)
Theorem get_open_positions_usd_size (self : PerpBitmart) (pairs : list string)
    (resp : list RawPosition.t) (positions : list Position.t) (w : world) :
  Ccxt.fetch_positions (_session self) (map ext_pair_to_pair pairs) = Returned resp ->
  fst (get_open_positions self pairs w) = Returned positions ->
  Forall2 (fun raw p =>
             exists k : Z,
               nearest_even (100 * RawPosition.markPrice raw) k
               /\ Position.usd_size p = to_float (k # 100)
               /\ (in_float_range (k # 100) ->
                   close_to (Position.usd_size p) (k # 100) (1 # 9007199254740992)))
          resp positions
  /\ (forall self' pairs' resp' positions' w',
        Ccxt.fetch_positions (_session self') (map ext_pair_to_pair pairs')
        = Returned resp' ->
        fst (get_open_positions self' pairs' w') = Returned positions' ->
        map RawPosition.markPrice resp' = map RawPosition.markPrice resp ->
        map Position.usd_size positions' = map Position.usd_size positions).
Proof.
  intros Hresp Hrun.
  pose proof (get_open_positions_returned self pairs resp w positions Hresp Hrun)
    as Hloop.
  split.
  - eapply Forall2_impl; [exact Hloop|].
    intros raw p (_ & _ & _ & Husd). rewrite Husd, py_round_2.
    eexists. split; [apply round_half_even_nearest|]. split; [reflexivity|].
    apply to_float_close.
  - intros self' pairs' resp' positions' w' Hresp' Hrun' Hmarks.
    pose proof (get_open_positions_returned self' pairs' resp' w' positions'
                  Hresp' Hrun') as Hloop'.
    rewrite (usd_size_of_normalized _ _ _ Hloop),
      (usd_size_of_normalized _ _ _ Hloop').
    rewrite Hmarks. reflexivity.
Qed.

Lemma get_open_positions_usd_size_witness :
  exists p,
    fst (run (get_open_positions (sample_adapter sample_session) ["BTC-USDT"%string]))
    = Returned [p]
    /\ exists k : Z,
        nearest_even (100 * (15012345 # 100000)) k
        /\ Position.usd_size p = to_float (k # 100)
        /\ (in_float_range (k # 100) ->
            close_to (Position.usd_size p) (k # 100) (1 # 9007199254740992)).
Proof.
  eexists. split; [vm_compute; reflexivity|].
  pose proof (proj1 (get_open_positions_usd_size (sample_adapter sample_session)
                       ["BTC-USDT"%string] [sample_position] _ initial eq_refl
                       ltac:(vm_compute; reflexivity))) as Hall.
  inversion Hall as [|raw p resp' ps Hp Hrest]; subst. exact Hp.
Defined.

(** The mark value 150.12345 gives 150.12, and 0.125, a tie, gives 0.12. *)
Example py_round_examples :
  py_round (15012345 # 100000) 2 = to_float (15012 # 100)
  /\ py_round (125 # 1000) 2 = to_float (12 # 100)
  /\ py_round (135 # 1000) 2 = to_float (14 # 100)
  /\ py_round (15012345 # 100000) 2 <> to_float (15012345 # 100000).
Proof. repeat split; try (vm_compute; reflexivity). vm_compute. discriminate. Qed.

(** [usd_size] is not [size] times the entry price: 150.12 against 150. *)
Example usd_size_is_not_size_times_entry_price :
  exists p size usd_size,
    fst (run (get_open_positions (sample_adapter sample_session) ["BTC-USDT"%string]))
    = Returned [p]
    /\ Position.size p = Finite size
    /\ Position.usd_size p = Finite usd_size
    /\ ~ usd_size == size * Position.entry_price p.
Proof.
  eexists. eexists. eexists. split; [vm_compute; reflexivity|].
  split; [reflexivity|]. split; [reflexivity|]. vm_compute. discriminate.
Qed.

(** A response with a zero-size position has a first one. *)
Lemma first_zero_size (resp : list RawPosition.t) (raw : RawPosition.t) :
  raw ∈ resp ->
  RawPosition.contracts raw * RawPosition.contractSize raw == 0 ->
  exists before first after,
    resp = (before ++ first :: after)%list
    /\ Forall (fun r => ~ RawPosition.contracts r * RawPosition.contractSize r == 0)
              before
    /\ RawPosition.contracts first * RawPosition.contractSize first == 0.
Proof.
  induction resp as [|r resp IH]; intros Hin Hz.
  - apply elem_of_nil in Hin. contradiction.
  - destruct (Qeq_dec (RawPosition.contracts r * RawPosition.contractSize r) 0)
      as [Hr|Hr].
    + exists [], r, resp. repeat split; [constructor | exact Hr].
    + apply elem_of_cons in Hin as [->|Hin]; [contradiction|].
      destruct (IH Hin Hz) as (before & first & after & -> & Hbefore & Hfirst).
      exists (r :: before), first, after.
      repeat split; [constructor; assumption | exact Hfirst].
Qed.

(** C9: when a position of the response has zero contracts or a zero
    contract size, [get_open_positions] returns no record: the first such
    position stops it, the division raising [DivisionByZero] when its mark
    price is not zero and [InvalidOperation] when it is zero too. *)
Theorem get_open_positions_zero_size (self : PerpBitmart) (pairs : list string)
    (resp : list RawPosition.t) (raw : RawPosition.t) :
  Ccxt.fetch_positions (_session self) (map ext_pair_to_pair pairs) = Returned resp ->
  raw ∈ resp ->
  RawPosition.contracts raw == 0 \/ RawPosition.contractSize raw == 0 ->
  exists before first after,
    resp = (before ++ first :: after)%list
    /\ Forall (fun r => ~ RawPosition.contracts r * RawPosition.contractSize r == 0)
              before
    /\ RawPosition.contracts first * RawPosition.contractSize first == 0
    /\ fst (run (get_open_positions self pairs))
       = Raised (if Qeq_bool (RawPosition.markPrice first) 0
                 then InvalidOperation else DivisionByZero).
Proof.
  intros Hresp Hin Hzero.
  assert (Hz : RawPosition.contracts raw * RawPosition.contractSize raw == 0)
    by (destruct Hzero as [Hz|Hz]; rewrite Hz; ring).
  destruct (first_zero_size resp raw Hin Hz)
    as (before & first & after & -> & Hbefore & Hfirst).
  exists before, first, after. repeat split; try assumption.
  unfold run. rewrite (get_open_positions_fetched self pairs _ initial Hresp).
  rewrite for_each_normalize_raises;
    [reflexivity | cbn; lia | exact Hbefore | exact Hfirst].
Qed.

Lemma get_open_positions_zero_size_witness :
  exists before first after,
    [sample_position; empty_position] = (before ++ first :: after)%list
    /\ Forall (fun r => ~ RawPosition.contracts r * RawPosition.contractSize r == 0)
              before
    /\ RawPosition.contracts first * RawPosition.contractSize first == 0
    /\ fst (run (get_open_positions (sample_adapter lookup_less_session)
                   ["BTC-USDT"; "ETH-USDT"]%string))
       = Raised (if Qeq_bool (RawPosition.markPrice first) 0
                 then InvalidOperation else DivisionByZero).
Proof.
  apply (get_open_positions_zero_size (sample_adapter lookup_less_session)
           ["BTC-USDT"; "ETH-USDT"]%string [sample_position; empty_position]
           empty_position eq_refl).
  - apply elem_of_cons; right. apply elem_of_cons; left. reflexivity.
  - left. reflexivity.
Defined.

(** No contracts and a mark price of 2000: [DivisionByZero]. *)
Example get_open_positions_flat_position :
  run (get_open_positions
         (sample_adapter (with_positions sample_session [flat_position; sample_position]))
         ["ETH-USDT"; "BTC-USDT"]%string)
  = (Raised DivisionByZero,
     {| calls := [CallFetchPositions ["ETH-USDT:USDT"; "BTC-USDT:USDT"]%string];
        printed := []; decimal_prec := 10 |}).
Proof. vm_compute. reflexivity. Qed.

(** A position without contracts and without value: the division is
    [0 / 0], and what is raised is [InvalidOperation]. *)
Lemma get_open_positions_zero_over_zero :
  fst (run (get_open_positions (sample_adapter lookup_less_session)
              ["BTC-USDT"; "ETH-USDT"]%string))
  = Raised InvalidOperation
  /\ fst (run (get_open_positions (sample_adapter lookup_less_session)
                 ["BTC-USDT"; "ETH-USDT"]%string))
     <> Raised DivisionByZero.
Proof. split; [vm_compute; reflexivity | vm_compute; discriminate]. Qed.

End PositionResults.

(** ** Order lookup *)

Section OrderLookupFacts.
Import Py.
Local Open Scope Q_scope.

Lemma in_2_3_spec (x : raw_value) :
  in_2_3 x = true <-> exists q, x = RawNumber q /\ (q == 2 # 1 \/ q == 3 # 1).
Proof.
  destruct x as [q|s]; cbn [in_2_3].
  - rewrite orb_true_iff, !Qeq_bool_iff. split.
    + intros H. exists q. split; [reflexivity | exact H].
    + intros (q' & [= <-] & H). exact H.
  - split; [discriminate | intros (q & Hq & _); discriminate].
Qed.

(** The constructor sets the precision of the context it runs in to 10,
    whatever it was, and calls nothing. *)
Lemma init_sets_precision (secret_api : option string) (session : Ccxt.Session)
    (w : world) :
  init secret_api session w
  = (Returned (new secret_api session),
     {| calls := calls w; printed := printed w; decimal_prec := 10 |}).
Proof. reflexivity. Qed.

Example init_in_other_thread :
  decimal_prec (snd (init (Some "secret"%string) sample_session other_thread)) = 10%Z
  /\ snd (init (Some "secret"%string) sample_session other_thread) = initial.
Proof. split; reflexivity. Qed.

(** C8: with the pair's contract size [s], the order returned by
    [get_order_by_id] has [size], [filled] and [remaining] equal to the
    raw [amount], [filled] and [remaining] times [s], rounded to the
    digits of the decimal context in force and converted to floats; when
    the context has ten digits or more, each is within one part in [10^9]
    of the exact product that is in the range of a binary64.  [reduce] is
    true exactly when the side code is a number equal to 2 or to 3. *)
Theorem get_order_by_id_units (self : PerpBitmart) (order_id pair : string)
    (m : gmap string MarketInfo) (info : MarketInfo) (resp : RawOrder.t)
    (w : world) :
  market self = Some m ->
  m !! ext_pair_to_pair pair = Some info ->
  Ccxt.fetch_order (_session self) order_id (ext_pair_to_pair pair) = Returned resp ->
  let s := contractSize info in
  let prec := decimal_prec w in
  exists o,
    fst (get_order_by_id self order_id pair w) = Returned o
    /\ Order.size o = to_float (Rounding.round_sig 10 prec (RawOrder.amount resp * s))
    /\ Order.filled o
       = to_float (Rounding.round_sig 10 prec (RawOrder.filled resp * s))
    /\ Order.remaining o
       = to_float (Rounding.round_sig 10 prec (RawOrder.remaining resp * s))
    /\ ((10 <= prec)%Z ->
        (in_float_range (RawOrder.amount resp * s) ->
         close_to (Order.size o) (RawOrder.amount resp * s) (1 # 1000000000))
        /\ (in_float_range (RawOrder.filled resp * s) ->
            close_to (Order.filled o) (RawOrder.filled resp * s) (1 # 1000000000))
        /\ (in_float_range (RawOrder.remaining resp * s) ->
            close_to (Order.remaining o) (RawOrder.remaining resp * s)
              (1 # 1000000000)))
    /\ (Order.reduce o = true <->
        exists q, RawOrder.info_side resp = RawNumber q /\ (q == 2 # 1 \/ q == 3 # 1)).
Proof.
  intros Hm Hinfo Hresp s prec.
  unfold get_order_by_id, get_pair_info, get_contractSize. unfold_monad.
  rewrite Hm, Hinfo. cbn [fst snd]. rewrite Hresp. cbn [fst snd decimal_prec].
  eexists. split; [reflexivity|].
  cbn [Order.size Order.filled Order.remaining Order.reduce].
  split; [reflexivity|]. split; [reflexivity|]. split; [reflexivity|]. split.
  - intros Hprec. repeat split; intros Hrange; apply stored_product_close; assumption.
  - apply in_2_3_spec.
Qed.

Lemma get_order_by_id_units_witness :
  exists o,
    fst (run (get_order_by_id (sample_adapter sample_session) "42" "BTC-USDT"))
    = Returned o
    /\ Order.size o = to_float (5 # 1000)
    /\ Order.filled o = to_float (2 # 1000)
    /\ Order.remaining o = to_float (3 # 1000)
    /\ close_to (Order.size o) (5 # 1000) (1 # 1000000000)
    /\ Order.reduce o = true.
Proof.
  destruct (get_order_by_id_units (sample_adapter sample_session) "42" "BTC-USDT"
              sample_market {| contractSize := 1 # 1000 |} sample_order initial
              eq_refl eq_refl eq_refl)
    as (o & Hrun & Hsize & Hfilled & Hremaining & Hclose & Hreduce).
  exists o. split; [exact Hrun|].
  split; [rewrite Hsize; vm_compute; reflexivity|].
  split; [rewrite Hfilled; vm_compute; reflexivity|].
  split; [rewrite Hremaining; vm_compute; reflexivity|]. split.
  - apply (proj1 (Hclose ltac:(vm_compute; discriminate))).
    right. split; vm_compute; discriminate.
  - apply Hreduce. exists (2 # 1). split; [reflexivity | left; reflexivity].
Defined.

(** An amount of 12345678901 contracts of size 1 comes back as
    12345678900 in the ten-digit context: the eleventh digit is lost. *)
Lemma get_order_by_id_loses_digits :
  exists o,
    fst (run (get_order_by_id (sample_adapter bulk_session) "77" "PEPE-USDT"))
    = Returned o
    /\ Order.size o = Finite (12345678900 # 1)
    /\ forall q, Order.size o = Finite q ->
                 ~ q == RawOrder.amount bulk_order * (1 # 1).
Proof.
  eexists. split; [vm_compute; reflexivity|]. cbn [Order.size].
  split; [reflexivity|]. intros q [= <-]. vm_compute. discriminate.
Qed.

(** The same lookup in a thread with the default context of 28 digits
    keeps the eleventh digit. *)
Example get_order_by_id_other_thread :
  exists o,
    fst (get_order_by_id (sample_adapter bulk_session) "77" "PEPE-USDT" other_thread)
    = Returned o
    /\ Order.size o = Finite (12345678901 # 1).
Proof. eexists. split; [vm_compute; reflexivity|]. reflexivity. Qed.

(** A side code that is the text "2" is in no list of numbers. *)
Example get_order_by_id_text_side :
  exists o,
    fst (run (get_order_by_id
                (sample_adapter (with_order sample_session text_side_order))
                "42" "BTC-USDT")) = Returned o
    /\ Order.reduce o = false.
Proof. eexists. split; [vm_compute; reflexivity|]. reflexivity. Qed.

(** An amount of [2^1100] contracts is stored as infinity. *)
Example get_order_by_id_overflow :
  exists o,
    fst (run (get_order_by_id
                (sample_adapter (with_order sample_session huge_order))
                "43" "BTC-USDT")) = Returned o
    /\ Order.size o = Infinity false.
Proof. eexists. split; [vm_compute; reflexivity|]. reflexivity. Qed.

End OrderLookupFacts.

(** ** More on pair translation *)

Section MorePairFacts.
Import PyStr.
Local Open Scope string_scope.

Lemma starts_with_split (pat s : string) :
  starts_with pat s = true -> exists t, s = String.append pat t.
Proof.
  revert s. induction pat as [|a pat IH]; intros s Hs.
  - exists s. reflexivity.
  - destruct s as [|b s]; [discriminate|].
    cbn [starts_with] in Hs. apply andb_prop in Hs as [Hab Hrest].
    apply Ascii.eqb_eq in Hab as <-.
    destruct (IH s Hrest) as [t ->]. exists t. reflexivity.
Qed.

(** A match at the head is dropped and the scan goes on behind it. *)
Lemma replace_from_match (t : string) :
  replace_from ":USDT" EmptyString 0 (String.append ":USDT" t)
  = replace_from ":USDT" EmptyString 0 t.
Proof.
  change (String.append ":USDT" t)
    with (String ":" (String "U" (String "S" (String "D" (String "T" t))))).
  cbn [replace_from]. 
  change (starts_with ":USDT"
            (String ":" (String "U" (String "S" (String "D" (String "T" t))))))
    with true.
  cbn. destruct t; reflexivity.
Qed.

Lemma replace_from_no_match (c : ascii) (s : string) :
  starts_with ":USDT" (String c s) = false ->
  replace_from ":USDT" EmptyString 0 (String c s)
  = String c (replace_from ":USDT" EmptyString 0 s).
Proof. intros Hs. cbn [replace_from]. rewrite Hs. reflexivity. Qed.

Lemma length_append (s t : string) :
  String.length (String.append s t) = (String.length s + String.length t)%nat.
Proof.
  induction s as [|c s IH]; [reflexivity|].
  change (String.append (String c s) t) with (String c (String.append s t)).
  cbn [String.length]. rewrite IH. reflexivity.
Qed.

(** What is left of a suffixed string is never longer than the string. *)
Lemma replace_from_suffixed_length (n : nat) : forall t,
  (String.length t <= n)%nat ->
  (String.length (replace_from ":USDT" EmptyString 0 (String.append t ":USDT"))
   <= String.length t)%nat.
Proof.
  induction n as [|n IH]; intros t Hlen.
  - destruct t; [vm_compute; lia | cbn in Hlen; lia].
  - destruct t as [|c t]; [vm_compute; lia|].
    change (String.append (String c t) ":USDT")
      with (String c (String.append t ":USDT")).
    destruct (starts_with ":USDT" (String c (String.append t ":USDT"))) eqn:Hs.
    + apply (starts_with_suffixed (String c t)) in Hs as [Hs|Hs]; [discriminate|].
      destruct (starts_with_split _ _ Hs) as [t2 Ht2].
      change (String c (String.append t ":USDT"))
        with (String.append (String c t) ":USDT").
      rewrite Ht2.
      replace (String.append (String.append ":USDT" t2) ":USDT")
        with (String.append ":USDT" (String.append t2 ":USDT")) by reflexivity.
      rewrite replace_from_match.
      assert (Hl : String.length (String c t) = (5 + String.length t2)%nat)
        by (rewrite Ht2, length_append; reflexivity).
      cbn [String.length] in Hlen, Hl.
      specialize (IH t2 ltac:(lia)). rewrite length_append. cbn [String.length]. lia.
    + rewrite (replace_from_no_match _ _ Hs). cbn [String.length] in *.
      specialize (IH t ltac:(lia)). lia.
Qed.

End MorePairFacts.

(** X1: an external pair that contains the internal suffix never comes back
    from the round trip: what comes back is shorter. *)
Theorem pair_round_trip_ill_formed_shorter (p : string) :
  PyStr.contains ":USDT" p = true ->
  (String.length (pair_to_ext_pair (ext_pair_to_pair p)) < String.length p)%nat
  /\ pair_to_ext_pair (ext_pair_to_pair p) <> p.
Proof.
  intros Hc.
  assert (Hlen : (String.length (pair_to_ext_pair (ext_pair_to_pair p))
                  < String.length p)%nat).
  { unfold pair_to_ext_pair, ext_pair_to_pair, PyStr.replace.
    induction p as [|c p IH]; [discriminate|].
    change (String.append (String c p) ":USDT")
      with (String c (String.append p ":USDT")).
    destruct (PyStr.starts_with ":USDT" (String c (String.append p ":USDT"))) eqn:Hs.
    - apply (starts_with_suffixed (String c p)) in Hs as [Hs|Hs]; [discriminate|].
      destruct (starts_with_split _ _ Hs) as [t2 Ht2].
      change (String c (String.append p ":USDT"))
        with (String.append (String c p) ":USDT").
      rewrite Ht2.
      replace (String.append (String.append ":USDT" t2) ":USDT")
        with (String.append ":USDT" (String.append t2 ":USDT")) by reflexivity.
      rewrite replace_from_match, length_append.
      pose proof (replace_from_suffixed_length _ t2 (le_n _)). cbn [String.length]. lia.
    - rewrite (replace_from_no_match _ _ Hs). cbn [String.length].
      cbn [PyStr.contains] in Hc.
      assert (Hhead : PyStr.starts_with ":USDT" (String c p) = false).
      { destruct (PyStr.starts_with ":USDT" (String c p)) eqn:Hp; [|reflexivity].
        destruct (starts_with_split _ _ Hp) as [t2 Ht2].
        change (String c (String.append p ":USDT"))
          with (String.append (String c p) ":USDT") in Hs.
        rewrite Ht2 in Hs. discriminate Hs. }
      rewrite Hhead in Hc. cbn [orb] in Hc. specialize (IH Hc). lia. }
  split; [exact Hlen|]. intros Heq. rewrite Heq in Hlen. lia.
Qed.

Lemma pair_round_trip_ill_formed_shorter_witness :
  (String.length (pair_to_ext_pair (ext_pair_to_pair "BTC:USDT-PERP"))
   < String.length "BTC:USDT-PERP")%nat
  /\ pair_to_ext_pair (ext_pair_to_pair "BTC:USDT-PERP") <> "BTC:USDT-PERP"%string.
Proof. apply (pair_round_trip_ill_formed_shorter "BTC:USDT-PERP"). reflexivity. Defined.

(** X2: [pair_to_ext_pair] leaves a string without the internal suffix as
    it is. *)
Theorem pair_to_ext_pair_external (s : string) :
  PyStr.contains ":USDT" s = false -> pair_to_ext_pair s = s.
Proof.
  unfold pair_to_ext_pair, PyStr.replace.
  induction s as [|c s IH]; intros Hc; [reflexivity|].
  cbn [PyStr.contains] in Hc. apply orb_false_elim in Hc as [Hhead Htail].
  rewrite (replace_from_no_match _ _ Hhead), (IH Htail). reflexivity.
Qed.

Lemma pair_to_ext_pair_external_witness :
  pair_to_ext_pair "BTC-USDT" = "BTC-USDT"%string.
Proof. apply (pair_to_ext_pair_external "BTC-USDT"). reflexivity. Defined.

(** ** More on the candle fetch *)

Section MoreWindowFacts.
Import Py.
Local Open Scope Z_scope.

(** The number of turns of the loop. *)
Lemma ohlcv_windows_length interval current_ts end_ts :
  current_ts < end_ts ->
  Z.of_nat (length (ohlcv_windows interval current_ts end_ts))
  = (end_ts - current_ts + bitmart_limit * Z.pos interval)
      / (bitmart_limit * Z.pos interval + 1).
Proof.
  funelim (ohlcv_windows interval current_ts end_ts); intros Hlt; [|contradiction].
  set (step := bitmart_limit * Z.pos interval + 1) in *.
  assert (Hstep : 0 < step) by (unfold step, bitmart_limit; lia).
  cbn [length]. rewrite Nat2Z.inj_succ.
  destruct (Z_lt_dec (current_ts + step) end_ts) as [Hmore|Hdone].
  - match goal with IH : _ < _ -> _ |- _ => rewrite (IH Hmore) end.
    replace (end_ts - current_ts + bitmart_limit * Z.pos interval)
      with (end_ts - (current_ts + step) + bitmart_limit * Z.pos interval + 1 * step)
      by lia.
    rewrite Z.div_add by lia. lia.
  - rewrite (ohlcv_windows_step interval (current_ts + step) end_ts).
    destruct (Z_lt_dec (current_ts + step) end_ts); [contradiction|].
    cbn [length]. change (Z.succ (Z.of_nat 0)) with 1.
    apply Z.div_unique with
      (r := end_ts - current_ts + bitmart_limit * Z.pos interval - step).
    + left. unfold step in *. lia.
    + lia.
Qed.

(** The calls a fetch leaves in the log are the requests of its windows. *)
Lemma get_last_ohlcv_calls (self : PerpBitmart) (end_ts : Z)
    (pair timeframe : string) (limit : Z) (ws : list (Z * Z)) :
  get_last_ohlcv_windows end_ts timeframe limit = Returned ws ->
  calls (snd (run (get_last_ohlcv self end_ts pair timeframe limit)))
  = map (fun w => CallFetchOhlcv (ext_pair_to_pair pair) timeframe
                    (fst (request_params w)) (snd (request_params w))) ws.
Proof.
  intros Hws. unfold get_last_ohlcv. unfold_monad. rewrite Hws. cbn [fst snd].
  destruct (all_returned _); cbn [fst snd calls initial app]; rewrite map_map;
    apply map_ext; intros w; reflexivity.
Qed.

Lemma all_returned_map {A B} (f : A -> outcome B) (g : A -> B) (l : list A) :
  (forall x, x ∈ l -> f x = Returned (g x)) ->
  all_returned (map f l) = Returned (map g l).
Proof.
  induction l as [|x l IH]; intros Hall; [reflexivity|].
  cbn [map all_returned]. rewrite (Hall x) by (apply elem_of_cons; auto).
  rewrite IH; [reflexivity|]. intros y Hy. apply Hall, elem_of_cons. auto.
Qed.

Lemma all_returned_raised {A B} (f : A -> outcome B) (l : list A) (x : A) (e : exn) :
  x ∈ l -> f x = Raised e ->
  exists x' e', x' ∈ l /\ f x' = Raised e' /\ all_returned (map f l) = Raised e'.
Proof.
  induction l as [|y l IH]; intros Hin Hx.
  - apply elem_of_nil in Hin. contradiction.
  - cbn [map all_returned]. destruct (f y) as [b|e0] eqn:Hy.
    + apply elem_of_cons in Hin as [->|Hin]; [congruence|].
      destruct (IH Hin Hx) as (x' & e' & Hin' & Hx' & Hall).
      exists x', e'. rewrite Hall. repeat split; [apply elem_of_cons; auto | exact Hx'].
    + exists y, e0. repeat split; [apply elem_of_cons; auto | exact Hy].
Qed.

Lemma next_second (x : Z) :
  0 <= x -> x mod 1000 <> 999 -> ms_to_s (x + 1) = ms_to_s x.
Proof.
  intros Hx Hr. unfold ms_to_s. rewrite !Z.quot_div_nonneg by lia.
  pose proof (Z.div_mod x 1000 ltac:(lia)) as Hdm.
  pose proof (Z.mod_pos_bound x 1000 ltac:(lia)) as Hm.
  symmetry. apply Z.div_unique with (r := x mod 1000 + 1); lia.
Qed.

End MoreWindowFacts.

Section MoreWindowResults.
Import Py.
Local Open Scope Z_scope.

(** X3: with a timeframe of the table and a positive limit,
    [get_last_ohlcv] makes [limit * interval] over
    [bitmart_limit * interval + 1], rounded up, requests; up to 500
    candles take one request. *)
Theorem get_last_ohlcv_request_count (self : PerpBitmart) (end_ts : Z)
    (pair timeframe : string) (interval : positive) (limit : Z) :
  dict_get ts_dict timeframe = Some interval ->
  0 < limit ->
  Z.of_nat (length (calls (snd (run (get_last_ohlcv self end_ts pair timeframe limit)))))
  = (limit * Z.pos interval + bitmart_limit * Z.pos interval)
      / (bitmart_limit * Z.pos interval + 1)
  /\ (limit <= bitmart_limit ->
      length (calls (snd (run (get_last_ohlcv self end_ts pair timeframe limit))))
      = 1%nat).
Proof.
  intros Htf Hlimit.
  assert (Hws : get_last_ohlcv_windows end_ts timeframe limit
                = Returned (ohlcv_windows interval (end_ts - limit * Z.pos interval)
                              end_ts))
    by (unfold get_last_ohlcv_windows; rewrite Htf; reflexivity).
  rewrite (get_last_ohlcv_calls self end_ts pair timeframe limit _ Hws).
  rewrite length_map.
  assert (Hcount : Z.of_nat (length (ohlcv_windows interval
                                       (end_ts - limit * Z.pos interval) end_ts))
                   = (limit * Z.pos interval + bitmart_limit * Z.pos interval)
                       / (bitmart_limit * Z.pos interval + 1)).
  { rewrite ohlcv_windows_length by nia. f_equal. lia. }
  split; [exact Hcount|].
  intros Hsmall. apply Nat2Z.inj. rewrite Hcount.
  symmetry. change (Z.of_nat 1) with 1.
  apply Z.div_unique with (r := limit * Z.pos interval - 1);
    unfold bitmart_limit in *; nia.
Qed.

Lemma get_last_ohlcv_request_count_witness :
  Z.of_nat (length (calls (snd (run (get_last_ohlcv (sample_adapter sample_session)
                                      1700000000000 "BTC-USDT" "1h" 1200)))))
  = (1200 * 3600000 + bitmart_limit * 3600000) / (bitmart_limit * 3600000 + 1).
Proof.
  apply (proj1 (get_last_ohlcv_request_count (sample_adapter sample_session)
                  1700000000000 "BTC-USDT" "1h" 3600000 1200 eq_refl ltac:(lia))).
Defined.

(** X4: the times go to the session in whole seconds, so the millisecond
    between two windows is lost: unless the earlier window ends on the
    last millisecond of a second, the next request starts at the very
    second the previous one ends. *)
Theorem ohlcv_requests_share_second (end_ts : Z) (timeframe : string)
    (interval : positive) (limit : Z) (ws : list (Z * Z)) (i : nat) (w w' : Z * Z) :
  dict_get ts_dict timeframe = Some interval ->
  get_last_ohlcv_windows end_ts timeframe limit = Returned ws ->
  0 <= end_ts - limit * Z.pos interval ->
  ws !! i = Some w ->
  ws !! S i = Some w' ->
  snd w mod 1000 <> 999 ->
  fst (request_params w') = snd (request_params w).
Proof.
  unfold get_last_ohlcv_windows. intros Htf. rewrite Htf.
  intros [= <-] Hstart Hi HSi Hmod.
  pose proof (ohlcv_windows_chain _ _ _ _ _ _ Hi HSi) as Hnext.
  assert (Hw : w ∈ ohlcv_windows interval (end_ts - limit * Z.pos interval) end_ts)
    by (apply list_elem_of_lookup; eauto).
  pose proof (ohlcv_windows_bounds _ _ _ _ Hw) as Hb.
  unfold request_params. cbn [fst snd]. rewrite Hnext.
  rewrite next_second; [reflexivity | lia | exact Hmod].
Qed.

Lemma ohlcv_requests_share_second_witness :
  fst (request_params (1698200000001, 1700000000000))
  = snd (request_params (1696400000000, 1698200000000)).
Proof.
  apply (ohlcv_requests_share_second 1700000000000 "1h" 3600000 1000
           [(1696400000000, 1698200000000); (1698200000001, 1700000000000)] 0
           (1696400000000, 1698200000000) (1698200000001, 1700000000000));
    try reflexivity; vm_compute; discriminate.
Defined.

(** X5: a timeframe outside the table makes [get_last_ohlcv] raise
    [KeyError] and a limit that is not positive makes it return no row; in
    both cases the session is not called. *)
Theorem get_last_ohlcv_no_request (self : PerpBitmart) (end_ts : Z)
    (pair timeframe : string) (limit : Z) :
  (dict_get ts_dict timeframe = None ->
   run (get_last_ohlcv self end_ts pair timeframe limit)
   = (Raised (KeyError timeframe), initial))
  /\ (forall interval,
        dict_get ts_dict timeframe = Some interval -> limit <= 0 ->
        run (get_last_ohlcv self end_ts pair timeframe limit)
        = (Returned [], initial)).
Proof.
  unfold get_last_ohlcv, get_last_ohlcv_windows. split.
  - intros Htf. rewrite Htf. reflexivity.
  - intros interval Htf Hlimit. rewrite Htf. rewrite ohlcv_windows_step.
    destruct (Z_lt_dec (end_ts - limit * Z.pos interval) end_ts) as [Hlt|_];
      [nia | reflexivity].
Qed.

Lemma get_last_ohlcv_no_request_witness :
  run (get_last_ohlcv (sample_adapter sample_session) 1700000000000
         "BTC-USDT" "3h" 1000)
  = (Raised (KeyError "3h"), initial)
  /\ run (get_last_ohlcv (sample_adapter sample_session) 1700000000000
            "BTC-USDT" "1h" 0)
     = (Returned [], initial).
Proof.
  split.
  - apply (proj1 (get_last_ohlcv_no_request (sample_adapter sample_session)
                    1700000000000 "BTC-USDT" "3h" 1000)). reflexivity.
  - apply (proj2 (get_last_ohlcv_no_request (sample_adapter sample_session)
                    1700000000000 "BTC-USDT" "1h" 0) 3600000%positive);
      [reflexivity | lia].
Defined.

(** X6: when every request returns, [get_last_ohlcv] gives the rows of the
    windows chained in window order; when a request raises, it raises what
    one of the requests raised and gives no row. *)
Theorem get_last_ohlcv_rows (self : PerpBitmart) (end_ts : Z)
    (pair timeframe : string) (limit : Z) (ws : list (Z * Z)) :
  get_last_ohlcv_windows end_ts timeframe limit = Returned ws ->
  let request w :=
    Ccxt.fetch_ohlcv (_session self) (ext_pair_to_pair pair) timeframe
      (fst (request_params w)) (snd (request_params w)) in
  (forall rows : Z * Z -> list candle,
      (forall w, w ∈ ws -> request w = Returned (rows w)) ->
      fst (run (get_last_ohlcv self end_ts pair timeframe limit))
      = Returned (concat (map rows ws)))
  /\ (forall w e,
        w ∈ ws -> request w = Raised e ->
        exists w' e',
          w' ∈ ws /\ request w' = Raised e'
          /\ fst (run (get_last_ohlcv self end_ts pair timeframe limit)) = Raised e').
Proof.
  intros Hws request.
  assert (Hrun : fst (run (get_last_ohlcv self end_ts pair timeframe limit))
                 = match all_returned (map request ws) with
                   | Returned l => Returned (concat l)
                   | Raised e => Raised e
                   end).
  { unfold get_last_ohlcv. unfold_monad. rewrite Hws. cbn [fst snd].
    rewrite map_map.
    replace (map (fun x => snd (let '(start_time, end_time) := request_params x in _))
               ws) with (map request ws) by (apply map_ext; intros w; reflexivity).
    destruct (all_returned (map request ws)); reflexivity. }
  rewrite Hrun. split.
  - intros rows Hrows. rewrite (all_returned_map request rows ws Hrows). reflexivity.
  - intros w e Hin He.
    destruct (all_returned_raised request ws w e Hin He) as (w' & e' & Hin' & He' & Hall).
    exists w', e'. rewrite Hall. auto.
Qed.

Lemma get_last_ohlcv_rows_witness :
  fst (run (get_last_ohlcv (sample_adapter sample_session) 1700000000000
              "BTC-USDT" "1h" 1000))
  = Returned (concat (map (fun _ : Z * Z => @nil candle)
                        [(1696400000000, 1698200000000);
                         (1698200000001, 1700000000000)])).
Proof.
  apply (proj1 (get_last_ohlcv_rows (sample_adapter sample_session) 1700000000000
                  "BTC-USDT" "1h" 1000 _ eq_refl) (fun _ => [])).
  intros w _. reflexivity.
Defined.

End MoreWindowResults.

(** ** More on positions *)

Section MorePositionFacts.
Import Py.
Local Open Scope Q_scope.

(** Errors of two factors compose in their product. *)
Lemma rel_error_mult (x y a b e1 e2 : Q) :
  0 <= e1 -> 0 <= e2 ->
  Qabs (a - x) <= e1 * Qabs x ->
  Qabs (b - y) <= e2 * Qabs y ->
  Qabs (a * b - x * y) <= (e1 + e2 + e1 * e2) * Qabs (x * y).
Proof.
  intros He1 He2 Ha Hb.
  assert (Hsplit : Qabs (a * b - x * y)
                   <= Qabs ((a - x) * y) + Qabs (x * (b - y) + (a - x) * (b - y))).
  { apply Qabs_split. ring. }
  assert (Hsplit2 : Qabs (x * (b - y) + (a - x) * (b - y))
                    <= Qabs (x * (b - y)) + Qabs ((a - x) * (b - y)))
    by apply Qabs_triangle.
  rewrite !Qabs_Qmult in *.
  pose proof (Qabs_nonneg x). pose proof (Qabs_nonneg y).
  pose proof (Qabs_nonneg (a - x)). pose proof (Qabs_nonneg (b - y)).
  revert Ha Hb Hsplit Hsplit2 H H0 H1 H2.
  generalize (Qabs (a * b - x * y)) (Qabs x) (Qabs y) (Qabs (a - x)) (Qabs (b - y))
             (Qabs (x * (b - y) + (a - x) * (b - y))).
  intros T X Y DA DB U Ha Hb Hs Hs2 HX HY HDA HDB.
  assert (DA * Y <= e1 * X * Y) by nra.
  assert (X * DB <= X * (e2 * Y)) by nra.
  assert (DA * DB <= (e1 * X) * (e2 * Y)) by nra.
  nra.
Qed.

Lemma or_zero_some (v : Q) : or_zero (Some v) == v.
Proof.
  unfold or_zero, truthy. cbn [default].
  destruct (Qeq_bool v 0) eqn:Hv; cbn [negb]; [|reflexivity].
  apply Qeq_bool_iff in Hv. symmetry. exact Hv.
Qed.

(** What [for_each] returns pairs off with its input. *)
Lemma for_each_returned {A B} (f : A -> M B) (P : A -> B -> Prop) (l : list A) :
  (forall x w y w', f x w = (Returned y, w') -> P x y) ->
  forall w ys w', for_each f l w = (Returned ys, w') -> Forall2 P l ys.
Proof.
  intros Hf. induction l as [|x l IH]; intros w ys w' Hrun.
  - cbn in Hrun. unfold ret in Hrun. injection Hrun as <- _. constructor.
  - cbn [for_each] in Hrun. unfold bind in Hrun.
    destruct (f x w) as [[y|e] w1] eqn:Hx; [|discriminate].
    destruct (for_each f l w1) as [[ys'|e] w2] eqn:Hl; [|discriminate].
    unfold ret in Hrun. injection Hrun as <- _.
    constructor; [eapply Hf; exact Hx | eapply IH; exact Hl].
Qed.

Lemma or_zero_default (x : option Q) : or_zero x == default 0 x.
Proof. destruct x as [v|]; [apply or_zero_some | reflexivity]. Qed.

Lemma normalize_position_carries (raw : RawPosition.t) (w : world)
    (p : Position.t) (w' : world) :
  normalize_position raw w = (Returned p, w') -> carried_over raw p.
Proof.
  unfold normalize_position. unfold_monad. cbn [fst snd].
  destruct (Decimal.div _ _ _) as [price|e]; [|discriminate].
  intros [= <- _]. unfold carried_over. cbn.
  repeat split; try apply or_zero_default.
  - destruct (RawPosition.hedged raw) as [[|]|]; cbn; congruence.
  - intros ->. reflexivity.
Qed.

(** What is within a relative [e] of a number in range is a normal
    binary64 magnitude. *)
Lemma approx_normal (X V e : Q) :
  0 <= e -> e <= 1 # 2 ->
  Qmake 1 (2 ^ 1021)%positive <= Qabs X -> Qabs X <= inject_Z (2 ^ 1022) ->
  Qabs (V - X) <= e * Qabs X ->
  min_normal <= Qabs V /\ Qabs V <= inject_Z (2 ^ 1023).
Proof.
  intros He0 He1 Hlo Hhi HV.
  assert (HVX : Qabs V <= Qabs X + Qabs (V - X)) by (apply Qabs_split; ring).
  assert (HXV : Qabs X <= Qabs V + Qabs (X - V)) by (apply Qabs_split; ring).
  rewrite (Qabs_Qminus X V) in HXV.
  rewrite low_range_double in Hlo.
  pose proof high_range_double as Hdouble.
  pose proof min_normal_pos as Hmin.
  revert HV HVX HXV Hlo Hhi Hdouble Hmin.
  generalize (Qabs V) (Qabs X) (Qabs (V - X)) (inject_Z (2 ^ 1022))
             (inject_Z (2 ^ 1023)) min_normal.
  intros AV AX D B22 B23 mn HV HVX HXV Hlo Hhi Hdouble Hmin.
  assert (e * AX <= (1 # 2) * AX) by nra.
  split; lra.
Qed.

(** A normal magnitude converts to a float within [2^-53] of it. *)
Lemma to_float_normal_close (V : Q) :
  min_normal <= Qabs V -> Qabs V <= inject_Z (2 ^ 1023) ->
  exists q, to_float V = Finite q
            /\ Qabs (q - V) <= (1 # 9007199254740992) * Qabs V.
Proof.
  intros Hlo Hhi. rewrite (to_float_normal V Hlo Hhi).
  eexists. split; [reflexivity | apply float_round_rel_error].
Qed.

End MorePositionFacts.

Section MorePositionResults.
Import Py.
Local Open Scope Q_scope.

(** X7: the positions come back one per raw position, in the order of the
    response; each carries the raw pair in external form, the raw side,
    entry price, PnL, leverage, margin type and open timestamp, the raw
    liquidation, take-profit and stop-loss prices with 0 for a missing one,
    and a hedge flag that is true exactly when the raw flag is set. *)
Theorem get_open_positions_fields (self : PerpBitmart) (pairs : list string)
    (resp : list RawPosition.t) (positions : list Position.t) :
  Ccxt.fetch_positions (_session self) (map ext_pair_to_pair pairs) = Returned resp ->
  fst (run (get_open_positions self pairs)) = Returned positions ->
  Forall2 carried_over resp positions.
Proof.
  intros Hresp Hrun. unfold run in Hrun.
  rewrite (get_open_positions_fetched self pairs resp initial Hresp) in Hrun.
  destruct (for_each normalize_position resp _) as [o w'] eqn:Hloop.
  cbn [fst] in Hrun. subst o.
  eapply for_each_returned; [|exact Hloop].
  intros raw w p w1. apply normalize_position_carries.
Qed.

Lemma get_open_positions_fields_witness :
  exists positions,
    fst (run (get_open_positions (sample_adapter sample_session) ["BTC-USDT"%string]))
    = Returned positions
    /\ Forall2 carried_over [sample_position] positions.
Proof.
  eexists. split; [vm_compute; reflexivity|].
  apply (get_open_positions_fields (sample_adapter sample_session)
           ["BTC-USDT"%string] [sample_position] _ eq_refl).
  vm_compute. reflexivity.
Defined.

(** X8: in a decimal context of ten digits or more, for each position
    returned whose [contracts * contractSize] and
    [markPrice / (contracts * contractSize)] are in the range of a
    binary64, [size] and [current_price] are finite and their product
    gives the raw [markPrice] back within one part in [10^9]. *)
Theorem get_open_positions_price_times_size (self : PerpBitmart)
    (pairs : list string) (resp : list RawPosition.t) (positions : list Position.t)
    (w : world) :
  Ccxt.fetch_positions (_session self) (map ext_pair_to_pair pairs) = Returned resp ->
  (10 <= decimal_prec w)%Z ->
  fst (get_open_positions self pairs w) = Returned positions ->
  Forall2 (fun raw p =>
             let c := RawPosition.contracts raw in
             let s := RawPosition.contractSize raw in
             let m := RawPosition.markPrice raw in
             in_float_range (c * s) ->
             in_float_range (m / (c * s)) ->
             exists size price,
               Position.size p = Finite size
               /\ Position.current_price p = Finite price
               /\ Qabs (size * price - m) <= (1 # 1000000000) * Qabs m)
          resp positions.
Proof.
  intros Hresp Hprec Hrun.
  pose proof (get_open_positions_returned self pairs resp w positions Hresp Hrun)
    as Hloop.
  eapply Forall2_impl; [exact Hloop|].
  intros raw p (Hnz & Hsize & Hprice & _). cbn zeta in *.
  set (prec := decimal_prec w) in *.
  set (c := RawPosition.contracts raw) in *.
  set (s := RawPosition.contractSize raw) in *.
  set (m := RawPosition.markPrice raw) in *.
  intros [Hzero|[HXlo HXhi]] HY; [contradiction|].
  pose proof (Decimal_round_rel_error prec (c * s) Hprec) as HSX.
  pose proof (Decimal_mul_nonzero prec c s ltac:(lia) Hnz) as HS.
  change (Rounding.round_sig 10 prec (c * s)) with (Decimal.mul prec c s) in HSX.
  revert Hsize Hprice HSX HS. generalize (Decimal.mul prec c s).
  intros S Hsize Hprice HSX HS.
  destruct (approx_normal (c * s) S (1 # 2000000000) ltac:(lra) ltac:(lra)
              HXlo HXhi HSX) as [HSlo HShi].
  destruct (to_float_normal_close S HSlo HShi) as (q1 & Hq1 & Hq1close).
  rewrite Hsize, Hq1.
  assert (Hm : S * (m / S) == m) by (field; exact HS).
  destruct HY as [HYzero|[HYlo HYhi]].
  - assert (Hm0 : m == 0).
    { transitivity ((c * s) * (m / (c * s)));
        [symmetry; apply Qmult_div_r; exact Hnz|].
      rewrite HYzero. ring. }
    assert (HmS : m / S == 0) by (rewrite Hm0; field; exact HS).
    rewrite Hprice, (round_sig_zero _ _ _ HmS).
    rewrite (to_float_zero 0 ltac:(reflexivity)).
    exists q1, 0. split; [reflexivity|]. split; [reflexivity|].
    assert (E : Qabs (q1 * 0 - m) == 0).
    { apply Qabs_eq_0. rewrite Hm0. ring. }
    rewrite E. pose proof (Qabs_nonneg m) as Hnn. revert Hnn.
    generalize (Qabs m). intros A Hnn. lra.
  - assert (HRY : Qabs (Rounding.round_sig 10 prec (m / S) - m / (c * s))
                  <= (12 # 10000000000) * Qabs (m / (c * s))).
    { pose proof (rel_error_divisor m (c * s) S (1 # 2000000000)
                    ltac:(lra) ltac:(lra) Hnz HS HSX) as Hdiv.
      assert (Hq : Qabs (m / S - m / (c * s))
                   <= (6 # 10000000000) * Qabs (m / (c * s))).
      { pose proof (Qabs_nonneg (m / (c * s))) as Hnn.
        pose proof (Qabs_nonneg (m / S - m / (c * s))) as Hnn'.
        revert Hdiv Hnn Hnn'.
        generalize (Qabs (m / (c * s))) (Qabs (m / S - m / (c * s))).
        intros T D Hdiv HT HD. lra. }
      eapply rel_error_weaken;
        [| apply (rel_error_trans _ _ _ (6 # 10000000000) (1 # 2000000000)
                    ltac:(lra) ltac:(lra) Hq
                    (Decimal_round_rel_error prec (m / S) Hprec))].
      lra. }
    destruct (approx_normal (m / (c * s)) _ (12 # 10000000000) ltac:(lra) ltac:(lra)
                HYlo HYhi HRY) as [HRlo HRhi].
    destruct (to_float_normal_close _ HRlo HRhi) as (q2 & Hq2 & Hq2close).
    rewrite Hprice, Hq2.
    exists q1, q2. split; [reflexivity|]. split; [reflexivity|].
    pose proof (rel_error_trans (m / S) _ _ (1 # 2000000000) (1 # 9007199254740992)
                  ltac:(lra) ltac:(lra) (Decimal_round_rel_error prec (m / S) Hprec)
                  Hq2close) as Hp.
    pose proof (rel_error_mult S (m / S) _ _ (1 # 9007199254740992)
                  ((1 # 2000000000) + (1 # 9007199254740992)
                   + (1 # 2000000000) * (1 # 9007199254740992))
                  ltac:(lra) ltac:(lra) Hq1close Hp) as Hprod.
    rewrite Hm in Hprod.
    eapply rel_error_weaken; [|exact Hprod]. lra.
Qed.

Lemma get_open_positions_price_times_size_witness :
  exists p size price,
    fst (run (get_open_positions (sample_adapter sample_session) ["BTC-USDT"%string]))
    = Returned [p]
    /\ Position.size p = Finite size
    /\ Position.current_price p = Finite price
    /\ Qabs (size * price - (15012345 # 100000))
       <= (1 # 1000000000) * Qabs (15012345 # 100000).
Proof.
  pose proof (get_open_positions_price_times_size (sample_adapter sample_session)
                ["BTC-USDT"%string] [sample_position] _ initial eq_refl
                ltac:(vm_compute; discriminate) ltac:(vm_compute; reflexivity))
    as Hall.
  inversion Hall as [|raw p resp' ps Hp Hrest]; subst.
  destruct Hp as (size & price & Hsize & Hprice & Hclose).
  - right. split; vm_compute; discriminate.
  - right. split; vm_compute; discriminate.
  - eexists. exists size, price. split; [reflexivity|].
    split; [exact Hsize|]. split; [exact Hprice | exact Hclose].
Defined.

End MorePositionResults.

(** ** More on orders *)

Section MoreOrderFacts.
Import Py.
Local Open Scope string_scope.

(** X9: without a loaded market table [get_order_by_id] raises
    [AttributeError], and for a pair the table does not have it raises
    [TypeError]; in both cases the session is not called. *)
Theorem get_order_by_id_unknown_pair (self : PerpBitmart) (order_id pair : string)
    (w : world) :
  (market self = None ->
   get_order_by_id self order_id pair w = (Raised (AttributeError "market"), w))
  /\ (forall m,
        market self = Some m -> m !! ext_pair_to_pair pair = None ->
        get_order_by_id self order_id pair w = (Raised TypeError, w)).
Proof.
  unfold get_order_by_id, get_pair_info, get_contractSize. unfold_monad. split.
  - intros ->. reflexivity.
  - intros m -> ->. reflexivity.
Qed.

Lemma get_order_by_id_unknown_pair_witness :
  get_order_by_id (new None sample_session) "42" "BTC-USDT" initial
  = (Raised (AttributeError "market"), initial)
  /\ get_order_by_id (sample_adapter sample_session) "42" "DOGE-USDT" initial
     = (Raised TypeError, initial).
Proof.
  split.
  - apply (proj1 (get_order_by_id_unknown_pair (new None sample_session)
                    "42" "BTC-USDT" initial)). reflexivity.
  - apply (proj2 (get_order_by_id_unknown_pair (sample_adapter sample_session)
                    "42" "DOGE-USDT" initial) sample_market); reflexivity.
Defined.

(** X10: the [error] flag changes nothing but the report of a failure: both
    modes make the same session calls; what the strict mode returns the
    lenient mode returns too; where the strict mode raises an [e] that
    derives from [Exception] the lenient mode prints [e] and returns
    [None], and where it raises another [e], as a cancellation, the
    lenient mode raises [e] as well. *)
Theorem place_order_modes (self : PerpBitmart) (pair side : string)
    (price size : Q) (type : string) (reduce : bool) (margin_mode : string)
    (leverage : Z) (w : world) :
  calls (snd (place_order self pair side price size type reduce margin_mode
                leverage false w))
  = calls (snd (place_order self pair side price size type reduce margin_mode
                  leverage true w))
  /\ match place_order self pair side price size type reduce margin_mode
             leverage true w with
     | (Returned o, w') =>
         place_order self pair side price size type reduce margin_mode
           leverage false w = (Returned o, w')
     | (Raised e, w') =>
         place_order self pair side price size type reduce margin_mode
           leverage false w
         = if is_exception e
           then (Returned None,
                 {| calls := calls w'; printed := (printed w' ++ [e])%list;
                    decimal_prec := decimal_prec w' |})
           else (Raised e, w')
     end.
Proof.
  unfold place_order, try_except.
  match goal with
  | |- context [match ?body w with _ => _ end] => destruct (body w) as [[o|e] w']
  end; [split; reflexivity|].
  destruct (is_exception e) eqn:He; (split; [reflexivity|]);
    unfold raise; cbv beta iota; rewrite He; reflexivity.
Qed.

(** A cancelled creation and a failed one, in the lenient mode. *)
Example place_order_modes_sample :
  fst (run (place_order (sample_adapter cancelled_session) "BTC-USDT" "buy"
              (30000 # 1) (5 # 1000)%Q "limit" false "cross" 1 false))
  = Raised CancelledError
  /\ fst (run (place_order (sample_adapter offline_session) "BTC-USDT" "buy"
                 (30000 # 1) (5 # 1000)%Q "limit" false "cross" 1 false))
     = Returned None.
Proof. split; vm_compute; reflexivity. Qed.

(** X11: when the market table is not loaded, or lacks the pair, or gives a
    zero contract size, [place_order] stops before the session is called:
    no order is created, the strict mode raises and the lenient mode
    returns [None]. *)
Theorem place_order_nothing_sent (self : PerpBitmart) (pair side : string)
    (price size : Q) (type : string) (reduce : bool) (margin_mode : string)
    (leverage : Z) (w : world) :
  let strict :=
    place_order self pair side price size type reduce margin_mode leverage true w in
  let lenient :=
    place_order self pair side price size type reduce margin_mode leverage false w in
  (market self = None ->
   strict = (Raised (AttributeError "market"), w)
   /\ fst lenient = Returned None /\ calls (snd lenient) = calls w)
  /\ (forall m,
        market self = Some m -> m !! ext_pair_to_pair pair = None ->
        strict = (Raised TypeError, w)
        /\ fst lenient = Returned None /\ calls (snd lenient) = calls w)
  /\ (forall m info,
        market self = Some m -> m !! ext_pair_to_pair pair = Some info ->
        (contractSize info == 0)%Q ->
        strict = (Raised (if Qeq_bool size 0 then InvalidOperation
                          else DivisionByZero), w)
        /\ fst lenient = Returned None /\ calls (snd lenient) = calls w).
Proof.
  cbn zeta. unfold place_order, get_pair_info, get_contractSize, Decimal.div.
  unfold_monad. split; [|split].
  - intros Hm. rewrite Hm. repeat split.
  - intros m Hm Hpair. rewrite Hm, Hpair. repeat split.
  - intros m info Hm Hpair Hzero. rewrite Hm, Hpair. cbn [fst snd].
    apply Qeq_bool_iff in Hzero. rewrite Hzero.
    destruct (Qeq_bool size 0); repeat split.
Qed.

Lemma place_order_nothing_sent_witness :
  place_order (sample_adapter sample_session) "DOGE-USDT" "buy" (1 # 10) (100 # 1)
    "limit" false "cross" 1 true initial
  = (Raised TypeError, initial)
  /\ fst (place_order (sample_adapter sample_session) "DOGE-USDT" "buy" (1 # 10)
            (100 # 1) "limit" false "cross" 1 false initial) = Returned None
  /\ calls (snd (place_order (sample_adapter sample_session) "DOGE-USDT" "buy"
                   (1 # 10) (100 # 1) "limit" false "cross" 1 false initial))
     = calls initial.
Proof.
  apply (proj1 (proj2 (place_order_nothing_sent (sample_adapter sample_session)
                         "DOGE-USDT" "buy" (1 # 10) (100 # 1) "limit" false "cross" 1
                         initial)) sample_market); reflexivity.
Defined.

End MoreOrderFacts.

Section UnitRoundTrip.
Import Py.
Local Open Scope Q_scope.

(** Contracts computed from a size convert back to the size. *)
Lemma contracts_to_size (p : Z) (size cs contracts amount : Q) :
  (10 <= p)%Z ->
  in_float_range size ->
  Decimal.div p size cs = Returned contracts ->
  amount == contracts ->
  close_to (to_float (Decimal.mul p amount cs)) size (2 # 1000000000).
Proof.
  intros Hp Hrange. unfold Decimal.div. destruct (Qeq_bool cs 0) eqn:Hcs.
  - destruct (Qeq_bool size 0); discriminate.
  - intros [= <-] Hamount. apply Qeq_bool_neq in Hcs.
    set (k := Rounding.round_sig 10 p (size / cs)) in *.
    assert (Hk : Qabs (amount * cs - size) <= (1 # 2000000000) * Qabs size).
    { assert (E1 : amount * cs - size == (k - size / cs) * cs)
        by (rewrite Hamount; field; exact Hcs).
      assert (E2 : size == size / cs * cs) by (field; exact Hcs).
      rewrite E1, Qabs_Qmult. rewrite E2 at 2. rewrite Qabs_Qmult.
      pose proof (Decimal_round_rel_error p (size / cs) Hp) as Hr. fold k in Hr.
      pose proof (Qabs_nonneg cs) as Hnn. revert Hr Hnn.
      generalize (Qabs (k - size / cs)) (Qabs (size / cs)) (Qabs cs).
      intros D X C Hr Hnn. nra. }
    pose proof (rel_error_trans size (amount * cs) (Decimal.mul p amount cs)
                  (1 # 2000000000) (1 # 2000000000)
                  ltac:(lra) ltac:(lra) Hk
                  (Decimal_round_rel_error p (amount * cs) Hp)) as Hstored.
    eapply close_to_weaken;
      [| apply (to_float_of_approx size (Decimal.mul p amount cs)
                  ((1 # 2000000000) + (1 # 2000000000)
                   + (1 # 2000000000) * (1 # 2000000000))
                  ltac:(lra) ltac:(lra) Hrange Hstored)].
    lra.
Qed.

(** X12: in a decimal context of ten digits or more, when the exchange
    holds the order with the amount the adapter computed, and names it
    with the symbol it was created under, [place_order] returns an order
    for the requested pair whose [size] is finite and is the requested
    size within two parts in [10^9], for a requested size in the range of
    a binary64. *)
Theorem place_order_size_round_trip (self : PerpBitmart) (pair side : string)
    (price size : Q) (type : string) (reduce : bool) (margin_mode : string)
    (leverage : Z) (error : bool) (w : world)
    (m : gmap string MarketInfo) (info : MarketInfo) (contracts : Q)
    (amount : string) (resp : CreatedOrder.t) (raw : RawOrder.t) :
  well_formed_ext_pair pair ->
  (10 <= decimal_prec w)%Z ->
  in_float_range size ->
  market self = Some m ->
  m !! ext_pair_to_pair pair = Some info ->
  Decimal.div (decimal_prec w) size (contractSize info) = Returned contracts ->
  Ccxt.amount_to_precision (_session self) (ext_pair_to_pair pair) contracts
  = Returned amount ->
  Ccxt.create_order (_session self) (ext_pair_to_pair pair) type side amount
    price reduce margin_mode leverage = Returned resp ->
  CreatedOrder.symbol resp = ext_pair_to_pair pair ->
  Ccxt.fetch_order (_session self) (CreatedOrder.id resp) (ext_pair_to_pair pair)
  = Returned raw ->
  RawOrder.symbol raw = ext_pair_to_pair pair ->
  RawOrder.amount raw == contracts ->
  exists o,
    fst (place_order self pair side price size type reduce margin_mode leverage
           error w) = Returned (Some o)
    /\ Order.pair o = pair
    /\ close_to (Order.size o) size (2 # 1000000000).
Proof.
  intros Hwf Hprec Hrange Hm Hinfo Hdiv Hamount Hcreate Hsym Hfetch Hrawsym
    Hrawamount.
  assert (Hback : pair_to_ext_pair (ext_pair_to_pair pair) = pair).
  { unfold pair_to_ext_pair, ext_pair_to_pair, PyStr.replace.
    apply replace_from_suffixed, Hwf. }
  unfold place_order, get_order_by_id, get_pair_info, get_contractSize.
  unfold_monad. rewrite Hm, Hinfo. cbn [fst snd]. rewrite Hdiv. cbn [fst snd].
  rewrite Hamount. cbn [fst snd]. rewrite Hcreate. cbn [fst snd].
  rewrite Hsym, Hback, Hinfo. cbn [fst snd]. rewrite Hfetch.
  cbn [fst snd decimal_prec].
  eexists. split; [reflexivity|]. cbn [Order.pair Order.size]. split.
  - rewrite Hrawsym. exact Hback.
  - apply (contracts_to_size (decimal_prec w) size (contractSize info) contracts _
             Hprec Hrange Hdiv Hrawamount).
Qed.

Lemma place_order_size_round_trip_witness :
  exists o,
    fst (place_order (sample_adapter sample_session) "BTC-USDT" "buy" (30000 # 1)
           (5 # 1000) "limit" false "cross" 1 true initial) = Returned (Some o)
    /\ Order.pair o = "BTC-USDT"%string
    /\ close_to (Order.size o) (5 # 1000) (2 # 1000000000).
Proof.
  apply (place_order_size_round_trip (sample_adapter sample_session) "BTC-USDT"
           "buy" (30000 # 1) (5 # 1000) "limit" false "cross" 1 true initial
           sample_market {| contractSize := 1 # 1000 |} (5 # 1) "5"
           {| CreatedOrder.id := "42"; CreatedOrder.symbol := "BTC-USDT:USDT" |}
           sample_order); try reflexivity.
  right. split; vm_compute; discriminate.
Defined.

End UnitRoundTrip.

Section MoreSetupFacts.
Import Py.
Local Open Scope string_scope.

(** X13: [set_margin_mode_and_leverage] never returns a failure record:
    whenever it returns, the mode was one of the two, [set_leverage]
    returned, the record reports success and the one session call made
    carries the mode as both [open_type] and [marginMode]. *)
Theorem set_margin_mode_returns_success (self : PerpBitmart)
    (pair margin_mode : string) (leverage : Z) (w w' : world) (info : Info.t) :
  set_margin_mode_and_leverage self pair margin_mode leverage w = (Returned info, w') ->
  Info.success info = true
  /\ (margin_mode = "cross" \/ margin_mode = "isolated")
  /\ Ccxt.set_leverage (_session self) leverage (ext_pair_to_pair pair)
       margin_mode margin_mode = Returned tt
  /\ calls w' = (calls w ++ [CallSetLeverage leverage (ext_pair_to_pair pair)
                               margin_mode margin_mode])%list.
Proof.
  unfold set_margin_mode_and_leverage.
  destruct (bool_decide (margin_mode ∈ ["cross"; "isolated"])) eqn:Hmode;
    cbn [negb]; [|discriminate].
  apply bool_decide_eq_true_1 in Hmode.
  rewrite !elem_of_cons, elem_of_nil in Hmode.
  unfold_monad.
  destruct (Ccxt.set_leverage (_session self) leverage (ext_pair_to_pair pair)
              margin_mode margin_mode) as [[]|e];
    [|cbn [fst snd]; destruct (is_exception e); discriminate].
  intros [= <- <-]. cbn. repeat split. tauto.
Qed.

Lemma set_margin_mode_returns_success_witness :
  Info.success {| Info.success := true;
                  Info.message := "Margin mode and leverage set to isolated and 5x" |}
  = true
  /\ ("isolated" = "cross" \/ "isolated" = "isolated")
  /\ Ccxt.set_leverage (_session (sample_adapter sample_session)) 5
       (ext_pair_to_pair "BTC-USDT") "isolated" "isolated" = Returned tt
  /\ calls {| calls := [CallSetLeverage 5 "BTC-USDT:USDT" "isolated" "isolated"];
              printed := []; decimal_prec := 10 |}
     = (calls initial ++ [CallSetLeverage 5 (ext_pair_to_pair "BTC-USDT")
                            "isolated" "isolated"])%list.
Proof.
  apply (set_margin_mode_returns_success (sample_adapter sample_session)
           "BTC-USDT" "isolated" 5 initial).
  vm_compute. reflexivity.
Defined.

(** X14: after [load_markets] has returned, [get_pair_info] finds for an
    external pair the entry the loaded table has under the pair's internal
    name, and [None] when there is none, without calling the session;
    when [load_markets] of the session raises, so does the adapter's. *)
Theorem load_markets_then_get_pair_info (self : PerpBitmart) (w : world) :
  (forall m,
      Ccxt.load_markets (_session self) = Returned m ->
      exists self' w',
        load_markets self w = (Returned self', w')
        /\ _session self' = _session self
        /\ _auth self' = _auth self
        /\ forall ext_pair w2,
             get_pair_info self' ext_pair w2
             = (Returned (m !! ext_pair_to_pair ext_pair), w2))
  /\ (forall e,
        Ccxt.load_markets (_session self) = Raised e ->
        fst (load_markets self w) = Raised e).
Proof.
  unfold load_markets. unfold_monad. split.
  - intros m ->. eexists. eexists. split; [reflexivity|]. repeat split.
    intros ext_pair w2. unfold get_pair_info. cbn [market]. unfold_monad.
    destruct (m !! ext_pair_to_pair ext_pair); reflexivity.
  - intros e ->. reflexivity.
Qed.

Lemma load_markets_then_get_pair_info_witness :
  exists self' w',
    load_markets (new (Some "secret") sample_session) initial = (Returned self', w')
    /\ _session self' = sample_session
    /\ _auth self' = true
    /\ forall ext_pair w2,
         get_pair_info self' ext_pair w2
         = (Returned (sample_market !! ext_pair_to_pair ext_pair), w2).
Proof.
  apply (proj1 (load_markets_then_get_pair_info (new (Some "secret") sample_session)
                  initial) sample_market). reflexivity.
Defined.

End MoreSetupFacts.

(** ** The session calls of a position fetch, and distinct pairs *)

Section MoreCallFacts.
Import Py.
Local Open Scope string_scope.

(** Normalizing positions neither calls the session nor prints. *)
Lemma for_each_normalize_world (resp : list RawPosition.t) (w : world) :
  snd (for_each normalize_position resp w) = w.
Proof.
  induction resp as [|raw resp IH]; [reflexivity|].
  cbn [for_each]. unfold bind.
  assert (Hraw : snd (normalize_position raw w) = w).
  { unfold normalize_position. unfold_monad. cbn [fst snd].
    destruct (Decimal.div _ _ _); reflexivity. }
  destruct (normalize_position raw w) as [[p|e] w1]; cbn [snd] in Hraw; subst w1;
    [|reflexivity].
  destruct (for_each normalize_position resp w) as [[ps|e] w2]; cbn [snd] in IH;
    subst w2; reflexivity.
Qed.

(** X15: whatever happens, [get_open_positions] makes one session call,
    [fetch_positions] with every pair in internal form, prints nothing
    and leaves the decimal context as it was. *)
Theorem get_open_positions_one_call (self : PerpBitmart) (pairs : list string) :
  snd (run (get_open_positions self pairs))
  = {| calls := [CallFetchPositions (map ext_pair_to_pair pairs)]; printed := [];
       decimal_prec := 10 |}.
Proof.
  unfold get_open_positions. unfold_monad.
  destruct (Ccxt.fetch_positions (_session self) (map ext_pair_to_pair pairs))
    as [resp|e]; cbn [fst snd]; [|reflexivity].
  apply for_each_normalize_world.
Qed.

Lemma append_suffix_inj (s s' t : string) :
  String.append s t = String.append s' t -> s = s'.
Proof.
  revert s'. induction s as [|c s IH]; intros [|c' s'] Heq.
  - reflexivity.
  - exfalso. apply (f_equal String.length) in Heq.
    rewrite (length_append (String c' s') t) in Heq.
    cbn [String.append String.length] in Heq.
    change (String.length (String.append EmptyString t)) with (String.length t) in Heq.
    lia.
  - exfalso. apply (f_equal String.length) in Heq.
    rewrite (length_append (String c s) t) in Heq.
    cbn [String.length] in Heq.
    change (String.length (String.append EmptyString t)) with (String.length t) in Heq.
    lia.
  - change (String c (String.append s t) = String c' (String.append s' t)) in Heq.
    injection Heq as -> Heq. f_equal. apply IH, Heq.
Qed.

(** X16: distinct external pairs have distinct internal names. *)
Theorem ext_pair_to_pair_inj (p q : string) :
  ext_pair_to_pair p = ext_pair_to_pair q -> p = q.
Proof. unfold ext_pair_to_pair. apply append_suffix_inj. Qed.

Lemma ext_pair_to_pair_inj_witness : "BTC-USDT" = "BTC-USDT".
Proof. apply (ext_pair_to_pair_inj "BTC-USDT" "BTC-USDT"). reflexivity. Defined.

End MoreCallFacts.
